(** * The video uploader package: a shallow embedding and its properties

    The development follows [src/uploader/scripts]:
    - [config_manager.py]   ->  [Module ConfigManager]
    - [video_validator.py]  ->  [Module VideoValidator]
    - [youtube_uploader.py] ->  [Module YouTubeUploader]
    - [instagram_uploader.py] -> [Module InstagramUploader]
    - [upload_video.py]     ->  [Module VideoUploader]

    Conventions of the embedding.
    - A Python [str] is a [string]; one [ascii] stands for one character,
      so the alphabet is the code points below 256.
    - A Python [float] is a primitive binary64 [float]; comparisons and
      arithmetic are the IEEE ones, as in CPython.
    - A Python [int] is a [Z].
    - A call that may raise returns an [outcome]; calls into vendor
      libraries, the file system and subprocesses are fields of records of
      "externals", whose values are arbitrary.
    - Log calls (loguru) are left out: no value or control flow depends on
      them. *)

From Stdlib Require Import ZArith NArith String Ascii List Floats Lia Bool.
From stdpp Require Import base option list gmap strings pretty.
Import ListNotations.

#[local] Set Warnings "-inexact-float,-register-all".

#[local] Open Scope string_scope.
#[local] Open Scope Z_scope.

(* ===================================================================== *)
(** ** Exceptions and outcomes *)
(* ===================================================================== *)

(** The exception classes the package distinguishes in its [except]
    clauses; [HttpError] carries [e.resp.status]. *)
Inductive exn_class :=
| TypeError
| ValueError
| OSError
| IndexError
| HttpError (status : Z)
| RetryError
| PlainException.

(** [type(e).__name__] *)
Definition class_name (c : exn_class) : string :=
  match c with
  | TypeError => "TypeError"
  | ValueError => "ValueError"
  | OSError => "OSError"
  | IndexError => "IndexError"
  | HttpError _ => "HttpError"
  | RetryError => "RetryError"
  | PlainException => "Exception"
  end.

(** An exception: its class and [str(e)]. *)
Record exn := Exn { exn_kind : exn_class; exn_str : string }.

Inductive outcome (A : Type) :=
| Returned (a : A)
| Raised (e : exn).
Arguments Returned {A} a.
Arguments Raised {A} e.


(** [l.append(x)] *)
Definition append {A} (l : list A) (x : A) : list A := (l ++ [x])%list.

(* ===================================================================== *)
(** ** Python strings *)
(* ===================================================================== *)

Module PyStr.

(** [c.isupper()] for a character below 256: A-Z and the Latin-1 capitals. *)
Definition is_upper (c : ascii) : bool :=
  let n := N_of_ascii c in
  (((65 <=? n) && (n <=? 90)) ||
   ((192 <=? n) && (n <=? 222) && negb (n =? 215)))%N.

Definition lower_char (c : ascii) : ascii :=
  if is_upper c then ascii_of_N (N_of_ascii c + 32) else c.

(** [s.lower()] *)
Fixpoint lower (s : string) : string :=
  match s with
  | EmptyString => EmptyString
  | String c s' => String (lower_char c) (lower s')
  end.

(** [c.isspace()] for a character below 256. *)
Definition is_space (c : ascii) : bool :=
  let n := N_of_ascii c in
  (((9 <=? n) && (n <=? 13)) || ((28 <=? n) && (n <=? 32)) ||
   (n =? 133) || (n =? 160))%N.

Fixpoint lstrip (s : string) : string :=
  match s with
  | String c s' => if is_space c then lstrip s' else s
  | EmptyString => EmptyString
  end.

(** [s.rstrip()]: a trailing run of white space is dropped. *)
Fixpoint rstrip (s : string) : string :=
  match s with
  | EmptyString => EmptyString
  | String c s' =>
      match rstrip s' with
      | EmptyString => if is_space c then EmptyString else String c EmptyString
      | r => String c r
      end
  end.

(** [s.strip()] *)
Definition strip (s : string) : string := rstrip (lstrip s).

(** [s.split(sep)] for a one-character separator: never the empty list. *)
Fixpoint split (sep : ascii) (s : string) : list string :=
  match s with
  | EmptyString => [EmptyString]
  | String c s' =>
      if Ascii.eqb c sep then EmptyString :: split sep s'
      else match split sep s' with
           | [] => [String c EmptyString]
           | w :: ws => String c w :: ws
           end
  end.

(** [s.replace(old, '')] for a one-character [old]. *)
Fixpoint remove_char (old : ascii) (s : string) : string :=
  match s with
  | EmptyString => EmptyString
  | String c s' =>
      if Ascii.eqb c old then remove_char old s' else String c (remove_char old s')
  end.


(** [sub in s] *)
Fixpoint contains (sub s : string) : bool :=
  String.prefix sub s ||
  match s with
  | EmptyString => false
  | String _ s' => contains sub s'
  end.

(** [s[:n]] for [n >= 0] *)
Fixpoint take (n : nat) (s : string) : string :=
  match n, s with
  | S n', String c s' => String c (take n' s')
  | _, _ => EmptyString
  end.

(** [s[n:]] for [n >= 0] *)
Fixpoint drop (n : nat) (s : string) : string :=
  match n, s with
  | S n', String _ s' => drop n' s'
  | _, _ => s
  end.

(** [s.rfind(c)]: [None] stands for -1. *)
Fixpoint rfind (c : ascii) (s : string) : option nat :=
  match s with
  | EmptyString => None
  | String d s' =>
      match rfind c s' with
      | Some i => Some (S i)
      | None => if Ascii.eqb d c then Some O else None
      end
  end.

(** [sep.join(l)] *)
Definition join (sep : string) (l : list string) : string := String.concat sep l.

(** [x in l] for a list of strings *)
Definition mem (x : string) (l : list string) : bool :=
  existsb (String.eqb x) l.

(** [c * n] *)
Fixpoint repeat_char (c : ascii) (n : nat) : string :=
  match n with
  | O => EmptyString
  | S n' => String c (repeat_char c n')
  end.

(** [not s] for an [Optional[str]] *)
Definition falsy (s : option string) : bool :=
  match s with
  | None | Some "" => true
  | Some _ => false
  end.

(** [str(o)] for an [Optional[str]], as an f-string renders it. *)
Definition str_of_optional (o : option string) : string :=
  match o with Some s => s | None => "None" end.

(** [repr(l)] for a list of strings without quotes or escapes. *)
Definition repr_list (l : list string) : string :=
  "[" ++ join ", " (map (fun s => "'" ++ s ++ "'") l) ++ "]".

(** Two hexadecimal digits, as [%02x] writes them. *)
Definition hex (n : nat) : string :=
  let digit d := String (nth d (list_ascii_of_string "0123456789abcdef") "0"%char) "" in
  digit (n / 16)%nat ++ digit (n mod 16)%nat.

(** [chr(n).isprintable()] below 256: not the control characters, nor
    the no-break space, nor the soft hyphen. *)
Definition printable (n : nat) : bool :=
  (32 <=? n)%nat && negb (n =? 127)%nat
  && negb ((128 <=? n)%nat && (n <=? 160)%nat) && negb (n =? 173)%nat.

(** [repr(s)] for a string: in single quotes, or in double quotes when
    the string holds a single quote and no double one; the quote and the
    backslash are escaped, and what does not print is written as an
    escape. *)
Definition repr (s : string) : string :=
  let squote := ascii_of_nat 39 in
  let dquote := ascii_of_nat 34 in
  let backslash := ascii_of_nat 92 in
  let has c := existsb (Ascii.eqb c) (list_ascii_of_string s) in
  let quote := if has squote && negb (has dquote) then dquote else squote in
  let escape c :=
    let n := nat_of_ascii c in
    if Ascii.eqb c quote || Ascii.eqb c backslash then String backslash (String c "")
    else if (n =? 9)%nat then String backslash "t"
    else if (n =? 10)%nat then String backslash "n"
    else if (n =? 13)%nat then String backslash "r"
    else if printable n then String c ""
    else String backslash ("x" ++ hex n) in
  String quote
    (fold_right (fun c rest => escape c ++ rest) (String quote "")
       (list_ascii_of_string s)).

(** [repr(l)] for a list of strings, as an f-string renders the list. *)
Definition repr_strings (l : list string) : string :=
  "[" ++ join ", " (map repr l) ++ "]".

(** [Path(p).name] on a POSIX path: the last component that is neither
    empty nor ".". *)
Definition path_name (p : string) : string :=
  List.last
    (List.filter (fun c => negb (String.eqb c "" || String.eqb c ".")) (split "/" p))
    "".

(** [Path(p).suffix]: from the last dot of the name, unless that dot is
    the first or the last character. *)
Definition path_suffix (p : string) : string :=
  let name := path_name p in
  match rfind "." name with
  | Some i =>
      if ((0 <? i) && (i <? String.length name - 1))%nat then drop i name else ""
  | None => ""
  end.

(** [s[:k]] for any integer [k]: a negative bound counts from the end. *)
Definition slice_to (k : Z) (s : string) : string :=
  if (0 <=? k)%Z then take (Z.to_nat k) s
  else take (Z.to_nat (Z.of_nat (String.length s) + k)) s.

(** [s.startswith(p)] *)
Definition startswith (p s : string) : bool := String.prefix p s.

(** [s.rstrip(c)] for one character [c] *)
Fixpoint rstrip_char (c : ascii) (s : string) : string :=
  match s with
  | EmptyString => EmptyString
  | String d s' =>
      match rstrip_char c s' with
      | EmptyString => if Ascii.eqb d c then EmptyString else String d EmptyString
      | r => String d r
      end
  end.

(** [os.path.dirname(p)] on POSIX: up to the last slash, without the
    slashes that end it unless it is made of slashes only. *)
Definition dirname (p : string) : string :=
  let head := match rfind "/" p with Some i => take (S i) p | None => "" end in
  if negb (String.eqb head "")
     && negb (String.eqb head (repeat_char "/" (String.length head)))
  then rstrip_char "/" head
  else head.

End PyStr.

(* ===================================================================== *)
(** ** Python floats *)
(* ===================================================================== *)

Module PyFloat.

(** [float(n)] for an [int]; exact below 2^53, to nearest even above. *)
Definition of_Z (n : Z) : float :=
  SF2Prim (binary_normalize prec emax n 0 false).

(** The nearest integer to [num / 2^sh], ties to even. *)
Definition round_half_even_shift (num : Z) (sh : Z) : Z :=
  let den := 2 ^ sh in
  let q := num / den in
  let r := num mod den in
  if (den <? 2 * r) then q + 1
  else if (den =? 2 * r) && Z.odd q then q + 1
  else q.

Fixpoint zeros (n : nat) : string :=
  match n with O => "" | S n' => "0" ++ zeros n' end.

(** [q] read as a count of units of [10^-digits], in fixed notation. *)
Definition fixed_digits (digits : nat) (q : Z) : string :=
  let unit := 10 ^ Z.of_nat digits in
  let whole := pretty (q / unit) in
  match digits with
  | O => whole
  | _ =>
      let frac := pretty (q mod unit) in
      whole ++ "." ++ zeros (digits - String.length frac) ++ frac
  end.

(** [format(f, '.<digits>f')]: the exact binary value rounded to
    [digits] decimals, ties to even. *)
Definition format_fixed (digits : nat) (f : float) : string :=
  let sign (s : bool) := if s then "-" else "" in
  match Prim2SF f with
  | S754_nan => "nan"
  | S754_infinity s => sign s ++ "inf"
  | S754_zero s => sign s ++ fixed_digits digits 0
  | S754_finite s m e =>
      let scaled := Z.pos m * 10 ^ Z.of_nat digits in
      let q := if (0 <=? e) then scaled * 2 ^ e
               else round_half_even_shift scaled (- e) in
      sign s ++ fixed_digits digits q
  end.

(** [int(f)]: truncation toward zero; [None] when Python raises
    (ValueError on nan, OverflowError on an infinity). *)
Definition trunc (f : float) : option Z :=
  match Prim2SF f with
  | S754_nan | S754_infinity _ => None
  | S754_zero _ => Some 0
  | S754_finite s m e =>
      let a := if (0 <=? e) then Z.pos m * 2 ^ e else Z.pos m / 2 ^ (- e) in
      Some (if s then - a else a)
  end.

(** [str(e)] of what [int(f)] raises. *)
Definition trunc_error (f : float) : string :=
  match Prim2SF f with
  | S754_nan => "cannot convert float NaN to integer"
  | _ => "cannot convert float infinity to integer"
  end.

End PyFloat.

(* ===================================================================== *)
(** ** The builtins [int(s)] and [float(s)] *)
(* ===================================================================== *)

(** Reference parsers for decimal literals written with the characters
    below 128, after the grammar of the Python language reference: white
    space around, a sign, groups of digits with single underscores inside.
    The configuration code is stated over arbitrary parsers; these serve to
    run it. *)
Module PyParse.
Import PyStr.

Definition digit_val (c : ascii) : option Z :=
  let n := Z.of_N (N_of_ascii c) in
  if (48 <=? n) && (n <=? 57) then Some (n - 48) else None.

(** A digit group: the number read so far, how many digits it has, and
    whether the last character was a digit. *)
Fixpoint digits_from (s : string) (acc : Z) (count : nat) (after_digit : bool)
  : option (Z * nat) :=
  match s with
  | EmptyString => if after_digit then Some (acc, count) else None
  | String c s' =>
      if Ascii.eqb c "_" then
        if after_digit then digits_from s' acc count false else None
      else
        match digit_val c with
        | Some d => digits_from s' (10 * acc + d) (S count) true
        | None => None
        end
  end.

Definition digit_group (s : string) : option (Z * nat) := digits_from s 0 O false.

(** A leading sign: [true] for "-". *)
Definition split_sign (s : string) : bool * string :=
  match s with
  | String "-" s' => (true, s')
  | String "+" s' => (false, s')
  | _ => (false, s)
  end.

Definition int_ (s : string) : option Z :=
  let '(neg, body) := split_sign (strip s) in
  match digit_group body with
  | Some (n, _) => Some (if neg then - n else n)
  | None => None
  end.

(** The text before and after the first occurrence of one of two
    characters. *)
Fixpoint cut (c1 c2 : ascii) (s : string) : string * option string :=
  match s with
  | EmptyString => (EmptyString, None)
  | String c s' =>
      if Ascii.eqb c c1 || Ascii.eqb c c2 then (EmptyString, Some s')
      else let '(a, b) := cut c1 c2 s' in (String c a, b)
  end.

(** The double nearest to [m * 10^e10], ties to even. *)
Definition decimal_to_float (neg : bool) (m : Z) (e10 : Z) : float :=
  match m with
  | Z.pos mp =>
      let magnitude :=
        if (0 <=? e10) then
          SF2Prim (binary_normalize prec emax (Z.pos mp * 10 ^ e10) 0 false)
        else
          SF2Prim (SFdiv prec emax (S754_finite false mp 0)
                     (S754_finite false (Z.to_pos (10 ^ (- e10))) 0)) in
      if neg then (- magnitude)%float else magnitude
  | _ => if neg then neg_zero else zero
  end.

(** An optional digit group: the empty text counts as no digits. *)
Definition opt_group (s : string) : option (Z * nat) :=
  match s with
  | EmptyString => Some (0, O)
  | _ => digit_group s
  end.

Definition float_ (s : string) : option float :=
  let '(neg, body) := split_sign (strip s) in
  let word := lower body in
  if String.eqb word "inf" || String.eqb word "infinity" then
    Some (if neg then neg_infinity else infinity)
  else if String.eqb word "nan" then Some nan
  else
    let '(mantissa, exponent) := cut "e" "E" body in
    let '(whole, fraction) := cut "." "." mantissa in
    match opt_group whole, opt_group (default "" fraction) with
    | Some (w, wn), Some (f, fn) =>
        if (wn + fn =? 0)%nat then None
        else
          let m := w * 10 ^ Z.of_nat fn + f in
          match exponent with
          | None => Some (decimal_to_float neg m (- Z.of_nat fn))
          | Some etxt =>
              let '(eneg, ebody) := split_sign etxt in
              match digit_group ebody with
              | Some (e, _) =>
                  Some (decimal_to_float neg m
                          ((if eneg then - e else e) - Z.of_nat fn))
              | None => None
              end
          end
    | _, _ => None
    end.

End PyParse.

(* ===================================================================== *)
(** ** loguru *)
(* ===================================================================== *)

Module Loguru.

(** The levels the package logs at, with their numbers. *)
Inductive Level := DEBUG | INFO | WARNING | ERROR.

Definition no (l : Level) : Z :=
  match l with DEBUG => 10 | INFO => 20 | WARNING => 30 | ERROR => 40 end.

(** One call of [logger.debug], [logger.info], [logger.warning] or
    [logger.error]: the level and the message. *)
Record Message := { level : Level; text : string }.

Definition debug (s : string) : Message := {| level := DEBUG; text := s |}.
Definition info (s : string) : Message := {| level := INFO; text := s |}.
Definition warning (s : string) : Message := {| level := WARNING; text := s |}.
Definition error (s : string) : Message := {| level := ERROR; text := s |}.

(** A sink added with [level=minimum] takes the messages at that level
    or above. *)
Definition passes (minimum : Level) (m : Message) : bool :=
  no minimum <=? no (level m).

End Loguru.

(* ===================================================================== *)
(** ** video_validator.py *)
(* ===================================================================== *)

#[global] Instance outcome_ret : MRet outcome := fun A a => Returned a.
#[global] Instance outcome_bind : MBind outcome := fun A B f o =>
  match o with
  | Returned a => f a
  | Raised e => Raised e
  end.

(** The file system as the package observes it: the paths that exist, each
    with its size in bytes ([os.path.exists], [os.path.getsize]). *)
Definition path_exists (files : gmap string Z) (p : string) : bool :=
  bool_decide (is_Some (files !! p)).

Definition getsize (files : gmap string Z) (p : string) : outcome Z :=
  match files !! p with
  | Some n => Returned n
  | None => Raised (Exn OSError ("[Errno 2] No such file or directory: '" ++ p ++ "'"))
  end.

Module VideoValidator.
Import PyStr.

(** The dictionary the two metadata getters return. [duration] and
    [aspect_ratio] are floats; the integer 0 the fallbacks put there is
    the float zero, which compares and formats alike. *)
Record Metadata := {
  md_duration : float;
  md_width : Z;
  md_height : Z;
  md_aspect_ratio : float;
  md_file_size : Z;
  md_format : string;
  md_bitrate : Z;
  md_fps : float
}.

Record ValidationResult := {
  is_valid : bool;
  error_message : option string;
  duration : option float;
  width : option Z;
  height : option Z;
  aspect_ratio : option float;
  file_size : option Z;
  format : option string;
  bitrate : option Z;
  fps : option float
}.

(** [ValidationResult(is_valid=..., error_message=...)] *)
Definition result_bare (valid : bool) (msg : option string) : ValidationResult :=
  {| is_valid := valid; error_message := msg;
     duration := None; width := None; height := None; aspect_ratio := None;
     file_size := None; format := None; bitrate := None; fps := None |}.

(** [ValidationResult(is_valid=..., error_message=..., **metadata)] *)
Definition result_with (valid : bool) (msg : option string) (m : Metadata)
  : ValidationResult :=
  {| is_valid := valid; error_message := msg;
     duration := Some (md_duration m); width := Some (md_width m);
     height := Some (md_height m); aspect_ratio := Some (md_aspect_ratio m);
     file_size := Some (md_file_size m); format := Some (md_format m);
     bitrate := Some (md_bitrate m); fps := Some (md_fps m) |}.

(** Platform limits: the class constants. *)
Definition YOUTUBE_SHORTS_MAX_DURATION : Z := 60.
Definition INSTAGRAM_REELS_MAX_DURATION : Z := 90.
Definition MAX_FILE_SIZE : Z := 500 * 1024 * 1024.
Definition MIN_RESOLUTION : Z * Z := (720, 1280).
Definition MAX_RESOLUTION : Z * Z := (1080, 1920).
Definition PREFERRED_ASPECT_RATIO : float := (9 / 16)%float.
Definition SUPPORTED_FORMATS : list string := [".mp4"; ".mov"; ".avi"].
Definition MIN_DURATION : float := 1%float.

(** What [cv2.VideoCapture(path).get(...)] reports: four doubles. *)
Record Cv2Props := {
  CAP_PROP_FRAME_WIDTH : float;
  CAP_PROP_FRAME_HEIGHT : float;
  CAP_PROP_FPS : float;
  CAP_PROP_FRAME_COUNT : float
}.

(** Why OpenCV gives no properties: the import fails, a call raises, or
    [cap.isOpened()] is false. *)
Inductive Cv2Failure :=
| Cv2Missing
| Cv2Raised (e : exn)
| Cv2NotOpened.

(** The validator's view of the outside world. *)
Record Externals := {
  (** [self.ffprobe_available], fixed by [__init__] *)
  ffprobe_available : bool;
  (** [_get_video_metadata_ffprobe]: the subprocess run and the parse of
      its JSON; it raises when ffprobe fails or finds no video stream *)
  ffprobe : string -> outcome Metadata;
  (** OpenCV: [None] when cv2 is missing, raises, or cannot open the file *)
  cv2_capture : string -> option Cv2Props;
  (** which of the three it is, when [cv2_capture] gives [None] *)
  cv2_failure : string -> Cv2Failure
}.

(** The dictionary of the "minimal fallback". *)
Definition minimal_metadata (size : Z) : Metadata :=
  {| md_duration := 0%float; md_width := 0; md_height := 0;
     md_aspect_ratio := 0%float; md_file_size := size;
     md_format := "unknown"; md_bitrate := 0; md_fps := 0%float |}.

Definition _get_basic_metadata (x : Externals) (files : gmap string Z)
    (video_path : string) : outcome Metadata :=
  size ← getsize files video_path;
  let fallback := mret (minimal_metadata size) in
  match cv2_capture x video_path with
  | None => fallback
  | Some cap =>
      match PyFloat.trunc (CAP_PROP_FRAME_WIDTH cap),
            PyFloat.trunc (CAP_PROP_FRAME_HEIGHT cap),
            PyFloat.trunc (CAP_PROP_FRAME_COUNT cap) with
      | Some w, Some h, Some frame_count =>
          let fps := CAP_PROP_FPS cap in
          mret {| md_duration :=
                    if (0 <? fps)%float then (PyFloat.of_Z frame_count / fps)%float
                    else 0%float;
                  md_width := w;
                  md_height := h;
                  md_aspect_ratio :=
                    if (0 <? h) then (PyFloat.of_Z w / PyFloat.of_Z h)%float
                    else 0%float;
                  md_file_size := size;
                  md_format := "unknown";
                  md_bitrate := 0;
                  md_fps := fps |}
      | _, _, _ => fallback   (* int() raised inside the try *)
      end
  end.

Definition _validate_metadata (metadata : Metadata) : list string :=
  let duration := md_duration metadata in
  let width := md_width metadata in
  let height := md_height metadata in
  let aspect_ratio := md_aspect_ratio metadata in
  let errors := [] in
  (* Duration validation *)
  let errors :=
    if (duration <? MIN_DURATION)%float then
      append errors
        ("Video too short: " ++ PyFloat.format_fixed 1 duration ++ "s (min: 1.0s)")
    else errors in
  let errors :=
    if (PyFloat.of_Z INSTAGRAM_REELS_MAX_DURATION <? duration)%float then
      append errors
        ("Video too long: " ++ PyFloat.format_fixed 1 duration
           ++ "s (max: " ++ pretty INSTAGRAM_REELS_MAX_DURATION
           ++ "s for Reels, " ++ pretty YOUTUBE_SHORTS_MAX_DURATION
           ++ "s for Shorts)")
    else errors in
  (* Resolution validation *)
  if (0 <? width) && (0 <? height) then
    let errors :=
      if (width <? fst MIN_RESOLUTION) || (height <? snd MIN_RESOLUTION) then
        append errors
          ("Resolution too low: " ++ pretty width ++ "x" ++ pretty height
             ++ " (min: " ++ pretty (fst MIN_RESOLUTION) ++ "x"
             ++ pretty (snd MIN_RESOLUTION) ++ ")")
      else errors in
    let errors :=
      if (fst MAX_RESOLUTION <? width) || (snd MAX_RESOLUTION <? height) then
        append errors
          ("Resolution too high: " ++ pretty width ++ "x" ++ pretty height
             ++ " (max: " ++ pretty (fst MAX_RESOLUTION) ++ "x"
             ++ pretty (snd MAX_RESOLUTION) ++ ")")
      else errors in
    (* Aspect ratio validation (prefer vertical) *)
    if (0 <? aspect_ratio)%float then
      if (1 <? aspect_ratio)%float then
        append errors
          ("Video is landscape (" ++ PyFloat.format_fixed 2 aspect_ratio
             ++ "). Vertical videos (9:16) work best for Shorts/Reels")
      else if (0.1 <? abs (aspect_ratio - PREFERRED_ASPECT_RATIO))%float then
        append errors
          ("Aspect ratio " ++ PyFloat.format_fixed 2 aspect_ratio
             ++ " may not be optimal. Preferred: "
             ++ PyFloat.format_fixed 2 PREFERRED_ASPECT_RATIO ++ " (9:16)")
      else errors
    else errors
  else errors.

(** The body of the [try] of [validate_video]. *)
Definition validate_video_try (x : Externals) (files : gmap string Z)
    (video_path : string) : outcome ValidationResult :=
  (* Check file existence *)
  if negb (path_exists files video_path) then
    mret (result_bare false (Some ("Video file not found: " ++ video_path)))
  else
  (* Check file extension *)
  let file_ext := lower (path_suffix video_path) in
  if negb (mem file_ext SUPPORTED_FORMATS) then
    mret (result_bare false
            (Some ("Unsupported format: " ++ file_ext ++ ". Supported: "
                     ++ repr_list SUPPORTED_FORMATS)))
  else
  (* Check file size *)
  size ← getsize files video_path;
  if (MAX_FILE_SIZE <? size) then
    mret (result_bare false
            (Some ("File too large: "
                     ++ PyFloat.format_fixed 1 (PyFloat.of_Z size / 1024 / 1024)%float
                     ++ "MB. Max: 500.0MB")))
  else if (size =? 0) then
    mret (result_bare false (Some "Video file is empty"))
  else
  (* Get video metadata using ffprobe if available *)
  metadata ← (if ffprobe_available x then ffprobe x video_path
              else _get_basic_metadata x files video_path);
  (* Validate metadata *)
  let validation_errors := _validate_metadata metadata in
  match validation_errors with
  | _ :: _ => mret (result_with false (Some (join "; " validation_errors)) metadata)
  | [] => mret (result_with true None metadata)
  end.

Definition validate_video (x : Externals) (files : gmap string Z)
    (video_path : string) : ValidationResult :=
  match validate_video_try x files video_path with
  | Returned r => r
  | Raised e => result_bare false (Some ("Validation error: " ++ exn_str e))
  end.

(** *** What the validator logs *)

Import Loguru.

(** The warnings of [_get_basic_metadata]: for a missing cv2, for what
    cv2 raises, and for an [int()] that raises on a property. *)
Definition _get_basic_metadata_log (x : Externals) (video_path : string)
  : list Message :=
  match cv2_capture x video_path with
  | None =>
      match cv2_failure x video_path with
      | Cv2Missing => [warning "OpenCV not available for video analysis"]
      | Cv2Raised e => [warning ("OpenCV video analysis failed: " ++ exn_str e)]
      | Cv2NotOpened => []
      end
  | Some cap =>
      let failed f := warning ("OpenCV video analysis failed: " ++ PyFloat.trunc_error f) in
      match PyFloat.trunc (CAP_PROP_FRAME_WIDTH cap),
            PyFloat.trunc (CAP_PROP_FRAME_HEIGHT cap),
            PyFloat.trunc (CAP_PROP_FRAME_COUNT cap) with
      | None, _, _ => [failed (CAP_PROP_FRAME_WIDTH cap)]
      | Some _, None, _ => [failed (CAP_PROP_FRAME_HEIGHT cap)]
      | Some _, Some _, None => [failed (CAP_PROP_FRAME_COUNT cap)]
      | Some _, Some _, Some _ => []
      end
  end.

(** The messages [validate_video] and the getters it calls hand to the
    logger, in order. *)
Definition validate_video_log (x : Externals) (files : gmap string Z)
    (video_path : string) : list Message :=
  if negb (path_exists files video_path) then []
  else if negb (mem (lower (path_suffix video_path)) SUPPORTED_FORMATS) then []
  else
  match getsize files video_path with
  | Raised e => [error ("Video validation error: " ++ exn_str e)]
  | Returned size =>
      if (MAX_FILE_SIZE <? size) then []
      else if (size =? 0) then []
      else
      let getter_log :=
        if ffprobe_available x then
          match ffprobe x video_path with
          | Raised e => [error ("ffprobe metadata extraction failed: " ++ exn_str e)]
          | Returned _ => []
          end
        else _get_basic_metadata_log x video_path in
      match (if ffprobe_available x then ffprobe x video_path
             else _get_basic_metadata x files video_path) with
      | Raised e => append getter_log (error ("Video validation error: " ++ exn_str e))
      | Returned metadata =>
          match _validate_metadata metadata with
          | _ :: _ => getter_log
          | [] => append getter_log (info ("Video validation successful: " ++ video_path))
          end
      end
  end.

Section Fps.
(** The builtin [float(s)] on a string; [None] stands for ValueError. *)
Variable py_float : string -> option float.

(** Parse fps from fractional string like '30/1'. ValueError (a part
    that is no number, or more than one slash at the unpacking) and
    ZeroDivisionError end in [0.0]. *)
Definition _parse_fps (fps_string : string) : float :=
  if contains "/" fps_string then
    match split "/" fps_string with
    | [num; den] =>
        match py_float num, py_float den with
        | Some n, Some d => if (d =? 0)%float then 0%float else (n / d)%float
        | _, _ => 0%float
        end
    | _ => 0%float
    end
  else
    match py_float fps_string with
    | Some f => f
    | None => 0%float
    end.

End Fps.

End VideoValidator.

(* ===================================================================== *)
(** ** Python objects: the values of a configuration *)
(* ===================================================================== *)

(** The values JSON and YAML files hold and [json.dumps] prints. A [dict]
    keeps its insertion order; its keys are strings. *)
Inductive pyobj :=
| PNone
| PBool (b : bool)
| PInt (n : Z)
| PFloat (f : float)
| PStr (s : string)
| PList (l : list pyobj)
| PDict (d : dict)
with dict :=
| DNil
| DCons (k : string) (v : pyobj) (rest : dict).

Scheme pyobj_mut := Induction for pyobj Sort Prop
  with dict_mut := Induction for dict Sort Prop.

(** [d.get(k)]; [None] when [k not in d]. *)
Fixpoint dict_get (k : string) (d : dict) : option pyobj :=
  match d with
  | DNil => None
  | DCons k' v rest => if String.eqb k k' then Some v else dict_get k rest
  end.

(** [d[k] = v]: in place when the key is there, at the end otherwise. *)
Fixpoint dict_set (k : string) (v : pyobj) (d : dict) : dict :=
  match d with
  | DNil => DCons k v DNil
  | DCons k' v' rest =>
      if String.eqb k k' then DCons k' v rest else DCons k' v' (dict_set k v rest)
  end.

(** A dictionary display [{k1: v1, ...}]. *)
Fixpoint dict_of (items : list (string * pyobj)) : dict :=
  match items with
  | [] => DNil
  | (k, v) :: rest => DCons k v (dict_of rest)
  end.

(** [d.items()] *)
Fixpoint dict_items (d : dict) : list (string * pyobj) :=
  match d with
  | DNil => []
  | DCons k v rest => (k, v) :: dict_items rest
  end.

Definition is_dict (v : pyobj) : bool :=
  match v with PDict _ => true | _ => false end.

(** [type(v).__name__] *)
Definition type_name (v : pyobj) : string :=
  match v with
  | PNone => "NoneType"
  | PBool _ => "bool"
  | PInt _ => "int"
  | PFloat _ => "float"
  | PStr _ => "str"
  | PList _ => "list"
  | PDict _ => "dict"
  end.

(** [bool(v)]: zero, the empty text and the empty containers are false;
    nan is true. *)
Definition truthy (v : pyobj) : bool :=
  match v with
  | PNone => false
  | PBool b => b
  | PInt n => negb (n =? 0)
  | PFloat f => negb (f =? 0)%float
  | PStr s => negb (String.eqb s "")
  | PList l => match l with [] => false | _ :: _ => true end
  | PDict d => match d with DNil => false | DCons _ _ _ => true end
  end.

(** [text in v]: a substring of a text, an element of a list, a key of a
    dictionary; TypeError on the other types. *)
Definition py_in (text : string) (v : pyobj) : outcome bool :=
  match v with
  | PStr s => Returned (PyStr.contains text s)
  | PList l =>
      Returned (existsb (fun o => match o with
                                  | PStr s => String.eqb s text
                                  | _ => false
                                  end) l)
  | PDict d => Returned (bool_decide (is_Some (dict_get text d)))
  | _ =>
      Raised (Exn TypeError
                ("argument of type '" ++ type_name v ++ "' is not iterable"))
  end.

(** The next three yield [None] when Python raises. *)

(** [v.get(k, default)]: only a dictionary has the method. *)
Definition py_get (v : pyobj) (k : string) (default : pyobj) : option pyobj :=
  match v with
  | PDict d =>
      Some (match dict_get k d with
            | Some found => found
            | None => default
            end)
  | _ => None
  end.

(** [v[k]] for a text [k]: KeyError on a dictionary without the key,
    TypeError on the other types. *)
Definition py_item (v : pyobj) (k : string) : option pyobj :=
  match v with
  | PDict d => dict_get k d
  | _ => None
  end.

(** The elements a [for] loop over [v] visits. *)
Definition py_iter (v : pyobj) : option (list pyobj) :=
  match v with
  | PList l => Some l
  | PStr s => Some (map (fun c => PStr (String c EmptyString)) (list_ascii_of_string s))
  | PDict d => Some (map (fun item => PStr (fst item)) (dict_items d))
  | _ => None
  end.

(* ===================================================================== *)
(** ** config_manager.py *)
(* ===================================================================== *)

Module ConfigManager.
Import PyStr.

Record ConfigManager := {
  config_data : dict;
  config_path : option string
}.

(** What the constructor reads from outside. *)
Record Externals := {
  (** [os.environ] at the call *)
  environ : gmap string string;
  (** the assignments of the [.env] file [load_dotenv] finds *)
  dotenv : gmap string string;
  (** [os.path.exists] *)
  file_exists : string -> bool;
  (** [yaml.safe_load(open(path))] *)
  yaml_safe_load : string -> outcome pyobj;
  (** [json.load(open(path))] *)
  json_load : string -> outcome pyobj
}.

(** [load_dotenv()] with its default [override=False]: a variable of the
    process keeps its value. *)
Definition load_dotenv (x : Externals) : gmap string string :=
  environ x ∪ dotenv x.

Definition defaults : dict :=
  dict_of [
    ("youtube", PDict (dict_of [
       ("credentials_path", PStr "data/youtube_credentials.json");
       ("token_path", PStr "data/youtube_token.json");
       ("category_id", PStr "22");
       ("default_privacy", PStr "public");
       ("default_tags", PList [PStr "Shorts"; PStr "Video"; PStr "Content"]);
       ("chunk_size", PInt (4 * 1024 * 1024));
       ("max_retries", PInt 3)]));
    ("instagram", PDict (dict_of [
       ("session_path", PStr "data/instagram_session.json");
       ("max_retries", PInt 3);
       ("delay_between_uploads", PInt 30);
       ("default_hashtags", PList [PStr "#Reels"; PStr "#Instagram"; PStr "#Video"])]));
    ("video", PDict (dict_of [
       ("max_file_size", PInt (500 * 1024 * 1024));
       ("supported_formats", PList [PStr ".mp4"; PStr ".mov"; PStr ".avi"]);
       ("max_duration_youtube", PInt 60);
       ("max_duration_instagram", PInt 90);
       ("min_duration", PFloat 1%float);
       ("preferred_aspect_ratio", PFloat (9 / 16)%float);
       ("min_resolution", PList [PInt 720; PInt 1280]);
       ("max_resolution", PList [PInt 1080; PInt 1920])]));
    ("upload", PDict (dict_of [
       ("concurrent_uploads", PBool true);
       ("retry_delays", PList [PInt 1; PInt 2; PInt 4; PInt 8]);
       ("timeout", PInt 300);
       ("chunk_upload_timeout", PInt 60)]));
    ("logging", PDict (dict_of [
       ("level", PStr "INFO");
       ("file_path", PStr "uploads.log");
       ("max_file_size", PStr "10 MB");
       ("backup_count", PInt 5);
       ("format", PStr "{time:YYYY-MM-DD HH:mm:ss} | {level: <8} | {name}:{function}:{line} - {message}")]))
  ].

Definition _load_defaults (self : ConfigManager) : ConfigManager :=
  {| config_data := defaults; config_path := config_path self |}.

(** Deep merge two dictionaries; the result is [base] after the call. *)
Fixpoint _deep_merge (base update : dict) {struct update} : dict :=
  match update with
  | DNil => base
  | DCons key value rest =>
      let base :=
        match dict_get key base, value with
        | Some (PDict b), PDict u => dict_set key (PDict (_deep_merge b u)) base
        | _, _ => dict_set key value base
        end in
      _deep_merge base rest
  end.

Definition possible_paths : list string :=
  ["data/config.json"; "data/config.yaml"; "data/config.yml";
   "config.json"; "config.yaml"; "config.yml"].

(** [s.endswith(suffix)] *)
Definition endswith (s suffix : string) : bool :=
  String.eqb (drop (String.length s - String.length suffix) s) suffix
  && (String.length suffix <=? String.length s)%nat.

(** The first [if] of [_load_config_file]: without a path, the first
    default location that exists. *)
Definition resolve_path (x : Externals) (config_path : option string)
  : option string :=
  match config_path with
  | None | Some "" =>
      (* Try default config file locations *)
      match List.find (file_exists x) possible_paths with
      | Some path => Some path
      | None => config_path
      end
  | Some _ => config_path
  end.

(** The [with open(...)] block: YAML or JSON by the extension. *)
Definition parse_config (x : Externals) (path : string) : outcome pyobj :=
  if endswith path ".yaml" || endswith path ".yml"
  then yaml_safe_load x path
  else json_load x path.

Definition _load_config_file (x : Externals) (self : ConfigManager) : ConfigManager :=
  let self := {| config_data := config_data self;
                 config_path := resolve_path x (config_path self) |} in
  match config_path self with
  | Some path =>
      if negb (String.eqb path "") && file_exists x path then
        match parse_config x path with
        | Returned (PDict file_config) =>
            (* Merge with existing config *)
            {| config_data := _deep_merge (config_data self) file_config;
               config_path := config_path self |}
        | Returned _ => self   (* [update.items()] raises; caught and logged *)
        | Raised _ => self     (* caught and logged *)
        end
      else self
  | None => self
  end.

(** Map environment variables to config keys *)
Definition env_mappings : list (string * string) :=
  [ (* YouTube *)
    ("YOUTUBE_CREDENTIALS_PATH", "youtube.credentials_path");
    ("YOUTUBE_TOKEN_PATH", "youtube.token_path");
    ("YOUTUBE_CATEGORY_ID", "youtube.category_id");
    ("YOUTUBE_DEFAULT_PRIVACY", "youtube.default_privacy");
    (* Instagram *)
    ("INSTAGRAM_USERNAME", "instagram.username");
    ("INSTAGRAM_PASSWORD", "instagram.password");
    ("INSTAGRAM_SESSION_PATH", "instagram.session_path");
    (* Video *)
    ("MAX_FILE_SIZE", "video.max_file_size");
    ("MAX_DURATION_YOUTUBE", "video.max_duration_youtube");
    ("MAX_DURATION_INSTAGRAM", "video.max_duration_instagram");
    (* Upload *)
    ("UPLOAD_TIMEOUT", "upload.timeout");
    ("MAX_RETRIES", "youtube.max_retries");
    (* Logging *)
    ("LOG_LEVEL", "logging.level");
    ("LOG_FILE", "logging.file_path") ].

(** The loop and the last assignment of [_set_nested_value]: [keys] is
    [keys[:-1]] still to walk, [last] is [keys[-1]]. Indexing or
    assigning into a value that is not a dictionary raises TypeError. *)
Fixpoint set_walk (current : dict) (keys : list string) (last : string)
    (value : pyobj) : outcome dict :=
  match keys with
  | [] => mret (dict_set last value current)
  | key :: keys' =>
      let current :=
        match dict_get key current with
        | None => dict_set key (PDict DNil) current
        | Some _ => current
        end in
      match dict_get key current with
      | Some (PDict sub) =>
          sub' ← set_walk sub keys' last value;
          mret (dict_set key (PDict sub') current)
      | Some other =>
          Raised (Exn TypeError
                    ("'" ++ type_name other ++ "' object does not support item assignment"))
      | None => Raised (Exn TypeError "unreachable")
      end
  end.

(** Set value in nested dictionary using dot notation. *)
Definition _set_nested_value (data : dict) (key_path : string) (value : pyobj)
  : outcome dict :=
  let keys := split "." key_path in
  set_walk data (removelast keys) (List.last keys "") value.

(** The loop of [get]: [None] when KeyError or TypeError is raised. *)
Fixpoint get_walk (current : pyobj) (keys : list string) : option pyobj :=
  match keys with
  | [] => Some current
  | key :: keys' =>
      match current with
      | PDict d =>
          match dict_get key d with
          | Some v => get_walk v keys'
          | None => None
          end
      | _ => None
      end
  end.

(** Get configuration value using dot notation. *)
Definition get (self : ConfigManager) (key_path : string) (default : pyobj) : pyobj :=
  let keys := split "." key_path in
  match get_walk (PDict (config_data self)) keys with
  | Some current => current
  | None => default
  end.

(** Set configuration value using dot notation. *)
Definition set (self : ConfigManager) (key_path : string) (value : pyobj)
  : outcome ConfigManager :=
  data ← _set_nested_value (config_data self) key_path value;
  mret {| config_data := data; config_path := config_path self |}.

(** Get entire configuration section. *)
Definition get_section (self : ConfigManager) (section : string) : pyobj :=
  match dict_get section (config_data self) with
  | Some v => v
  | None => PDict DNil
  end.

Section Builtins.
(** The builtins [int(s)] and [float(s)] on a string; [None] stands for
    ValueError. *)
Variable py_int : string -> option Z.
Variable py_float : string -> option float.

(** Convert environment variable string to appropriate type. *)
Definition _convert_env_value (value : string) : pyobj :=
  (* Try boolean *)
  if mem (lower value) ["true"; "false"] then
    PBool (String.eqb (lower value) "true")
  else
  (* Try integer *)
  match py_int value with
  | Some n => PInt n
  | None =>
      (* Try float *)
      match py_float value with
      | Some f => PFloat f
      | None =>
          (* Return as string *)
          PStr value
      end
  end.

(** The [for] loop of [_load_environment] over [env_mappings.items()]. *)
Fixpoint load_environment_loop (getenv : gmap string string)
    (mappings : list (string * string)) (data : dict) : outcome dict :=
  match mappings with
  | [] => mret data
  | (env_var, config_key) :: mappings' =>
      match getenv !! env_var with
      | Some value =>
          let converted_value := _convert_env_value value in
          data' ← _set_nested_value data config_key converted_value;
          load_environment_loop getenv mappings' data'
      | None => load_environment_loop getenv mappings' data
      end
  end.

Definition _load_environment (x : Externals) (self : ConfigManager)
  : outcome ConfigManager :=
  let getenv := load_dotenv x in
  data ← load_environment_loop getenv env_mappings (config_data self);
  mret {| config_data := data; config_path := config_path self |}.

(** [ConfigManager(config_path)] *)
Definition __init__ (x : Externals) (config_path : option string)
  : outcome ConfigManager :=
  let self := {| config_data := DNil; config_path := config_path |} in
  (* Load configuration in order of precedence *)
  let self := _load_defaults self in
  let self := _load_config_file x self in
  _load_environment x self.

End Builtins.

(** *** Saving and reporting *)

(** What [save_config], [validate_config] and [get_credentials_info] ask
    of the file system, beyond [file_exists]. *)
Record FileSystem := {
  (** [os.path.exists(v)] for a [v] that is not a text: an integer is
      taken as a file descriptor, most other types raise TypeError *)
  exists_object : pyobj -> outcome bool;
  (** [Path('data').exists()] *)
  data_dir_exists : bool;
  (** [os.makedirs(name, exist_ok=True)] *)
  makedirs : string -> outcome unit;
  (** [open(path, 'w')] and the dump into the file *)
  write_text : string -> outcome unit
}.

(** [os.path.exists(v)] on a value of the configuration *)
Definition os_path_exists (x : Externals) (fs : FileSystem) (v : pyobj)
  : outcome bool :=
  match v with
  | PStr path => Returned (file_exists x path)
  | _ => exists_object fs v
  end.

Inductive Dumper := YamlDump | JsonDump.

(** What a call of [save_config] that returns has written. *)
Record Written := {
  written_path : string;
  written_by : Dumper;
  written_data : dict
}.

(** Save current configuration to file. *)
Definition save_config (fs : FileSystem) (self : ConfigManager)
    (output_path : option string) : outcome Written :=
  let output_path :=
    if falsy output_path then
      if falsy (config_path self) then "data/config.json"
      else default "" (config_path self)
    else default "" output_path in
  (* Ensure directory exists *)
  _ ← makedirs fs (dirname output_path);
  _ ← write_text fs output_path;
  mret {| written_path := output_path;
          written_by := if endswith output_path ".yaml" || endswith output_path ".yml"
                        then YamlDump else JsonDump;
          written_data := config_data self |}.

(** [v <= 0] *)
Definition le_zero (v : pyobj) : outcome bool :=
  match v with
  | PInt n => Returned (n <=? 0)
  | PBool b => Returned (negb b)
  | PFloat f => Returned (f <=? 0)%float
  | _ =>
      Raised (Exn TypeError
                ("'<=' not supported between instances of '" ++ type_name v
                   ++ "' and 'int'"))
  end.

(** The dictionary [validate_config] returns. *)
Record ConfigReport := {
  errors : list string;
  warnings : list string
}.

(** Validate configuration and return any issues. *)
Definition validate_config (x : Externals) (fs : FileSystem) (self : ConfigManager)
  : outcome ConfigReport :=
  let errors := [] in
  let warnings := [] in
  (* Check required YouTube settings *)
  found ← os_path_exists x fs (get self "youtube.credentials_path" (PStr ""));
  let errors :=
    if negb found then
      append errors
        "YouTube credentials file not found. Download from Google Cloud Console."
    else errors in
  (* Check Instagram credentials *)
  let warnings :=
    if negb (truthy (get self "instagram.username" PNone)) then
      append warnings "Instagram username not configured"
    else warnings in
  let warnings :=
    if negb (truthy (get self "instagram.password" PNone)) then
      append warnings "Instagram password not configured"
    else warnings in
  (* Validate video settings *)
  let max_file_size := get self "video.max_file_size" (PInt 0) in
  invalid ← le_zero max_file_size;
  let errors :=
    if (invalid : bool) then append errors "Invalid max file size configuration"
    else errors in
  (* Validate paths *)
  let warnings :=
    if negb (data_dir_exists fs) then
      append warnings
        "Data directory does not exist. It will be created automatically."
    else warnings in
  mret {| errors := errors; warnings := warnings |}.

(** Get information about configured credentials. *)
Definition get_credentials_info (x : Externals) (fs : FileSystem)
    (self : ConfigManager) : outcome pyobj :=
  credentials_file_exists ←
    os_path_exists x fs (get self "youtube.credentials_path" (PStr ""));
  token_file_exists ← os_path_exists x fs (get self "youtube.token_path" (PStr ""));
  session_file_exists ←
    os_path_exists x fs (get self "instagram.session_path" (PStr ""));
  mret (PDict (dict_of [
    ("youtube", PDict (dict_of [
       ("credentials_file_exists", PBool credentials_file_exists);
       ("token_file_exists", PBool token_file_exists);
       ("credentials_path", get self "youtube.credentials_path" (PStr ""));
       ("token_path", get self "youtube.token_path" (PStr ""))]));
    ("instagram", PDict (dict_of [
       ("username_configured", PBool (truthy (get self "instagram.username" PNone)));
       ("password_configured", PBool (truthy (get self "instagram.password" PNone)));
       ("session_file_exists", PBool session_file_exists);
       ("session_path", get self "instagram.session_path" (PStr ""))]))])).

(** The masking of [__str__], on the copy that
    [json.loads(json.dumps(self.config_data))] makes. *)
Definition mask_password (safe_config : dict) : outcome dict :=
  match dict_get "instagram" safe_config with
  | Some section =>
      found ← py_in "password" section;
      if (found : bool) then
        match section with
        | PDict d =>
            mret (dict_set "instagram"
                    (PDict (dict_set "password" (PStr "***masked***") d))
                    safe_config)
        | PList _ =>
            Raised (Exn TypeError "list indices must be integers or slices, not str")
        | _ =>
            Raised (Exn TypeError
                      ("'" ++ type_name section
                         ++ "' object does not support item assignment"))
        end
      else mret safe_config
  | None => mret safe_config
  end.

Section Dumps.
(** [json.dumps(v, indent=2)] *)
Variable json_dumps : pyobj -> string.

(** String representation of configuration. *)
Definition __str__ (self : ConfigManager) : outcome string :=
  (* Return config without sensitive information *)
  safe_config ← mask_password (config_data self);
  mret (json_dumps (PDict safe_config)).

End Dumps.

End ConfigManager.

(* ===================================================================== *)
(** ** video_validator.py: the report of ffprobe and the compatibility *)
(* ===================================================================== *)

(** The methods of [VideoValidator] that handle Python objects: the JSON
    document ffprobe prints, and the values the compatibility tests
    return. A call that raises yields [None]: the callers re-raise or
    catch whatever the exception is. *)
Module VideoProbe.
Import PyStr.

(** [a / b] on integers with [b > 0]: the quotient rounded once, to the
    nearest double; OverflowError when it is out of range. *)
Definition true_div (a b : Z) : option float :=
  let quotient (sign : bool) (m : positive) :=
    let q := SF2Prim (SFdiv prec emax (S754_finite sign m 0)
                        (S754_finite false (Z.to_pos b) 0)) in
    match Prim2SF q with
    | S754_infinity _ => None
    | _ => Some q
    end in
  match a with
  | Z0 => Some 0%float
  | Z.pos m => quotient false m
  | Z.neg m => quotient true m
  end.

(** Find video stream: the loop stops at the first stream whose
    [codec_type] is "video"; [Some None] when it ends without one. *)
Fixpoint find_video_stream (streams : list pyobj) : option (option dict) :=
  match streams with
  | [] => Some None
  | PDict stream :: streams' =>
      match dict_get "codec_type" stream with
      | Some (PStr "video") => Some (Some stream)
      | _ => find_video_stream streams'
      end
  | _ :: _ => None
  end.

(** What ffprobe leaves behind. *)
Record Subprocess := {
  returncode : Z;
  (** [json.loads(stdout.decode())] *)
  stdout_json : option pyobj
}.

(** The dictionary [_get_video_metadata_ffprobe] returns; the integer 0
    of an unknown aspect ratio is the float zero. *)
Record FfprobeMetadata := {
  duration : float;
  width : Z;
  height : Z;
  aspect_ratio : float;
  file_size : Z;
  format : pyobj;
  bitrate : Z;
  fps : float
}.

(** Check if video is compatible with YouTube Shorts. After the test of
    [is_valid], the chain
    [duration and duration <= limit and aspect_ratio and aspect_ratio <= 1.0]
    yields its first false operand, or else the last one. *)
Definition _is_youtube_shorts_compatible (result : VideoValidator.ValidationResult)
  : pyobj :=
  if negb (VideoValidator.is_valid result) then PBool false
  else
    match VideoValidator.duration result with
    | None => PNone
    | Some d =>
        if (d =? 0)%float then PFloat d
        else if negb (d <=? PyFloat.of_Z VideoValidator.YOUTUBE_SHORTS_MAX_DURATION)%float
        then PBool false
        else
          match VideoValidator.aspect_ratio result with
          | None => PNone
          | Some a =>
              if (a =? 0)%float then PFloat a
              else PBool (a <=? 1)%float   (* Vertical or square *)
          end
    end.

(** Check if video is compatible with Instagram Reels. *)
Definition _is_instagram_reels_compatible (result : VideoValidator.ValidationResult)
  : pyobj :=
  if negb (VideoValidator.is_valid result) then PBool false
  else
    match VideoValidator.duration result with
    | None => PNone
    | Some d =>
        if (d =? 0)%float then PFloat d
        else if negb (d <=? PyFloat.of_Z VideoValidator.INSTAGRAM_REELS_MAX_DURATION)%float
        then PBool false
        else
          match VideoValidator.aspect_ratio result with
          | None => PNone
          | Some a =>
              if (a =? 0)%float then PFloat a
              else PBool (a <=? 1)%float   (* Vertical or square *)
          end
    end.

Section Builtins.
(** The builtins [int(s)] and [float(s)] on a string; [None] stands for
    ValueError. *)
Variable py_int : string -> option Z.
Variable py_float : string -> option float.

(** [float(v)]: TypeError on [None] and the containers, OverflowError on
    an integer out of range. *)
Definition float_of (v : pyobj) : option float :=
  match v with
  | PFloat f => Some f
  | PInt n =>
      let f := PyFloat.of_Z n in
      match Prim2SF f with
      | S754_infinity _ => None
      | _ => Some f
      end
  | PBool b => Some (if b then 1%float else 0%float)
  | PStr s => py_float s
  | PNone | PList _ | PDict _ => None
  end.

(** [int(v)] *)
Definition int_of (v : pyobj) : option Z :=
  match v with
  | PInt n => Some n
  | PBool b => Some (if b then 1 else 0)
  | PFloat f => PyFloat.trunc f
  | PStr s => py_int s
  | PNone | PList _ | PDict _ => None
  end.

(** [self._parse_fps(v)]: on a value that is not a text, the test
    ['/' in v] or the conversion raises an exception [_parse_fps] does
    not catch. *)
Definition parse_fps_of (v : pyobj) : option float :=
  match v with
  | PStr s => Some (VideoValidator._parse_fps py_float s)
  | _ => None
  end.

(** The part of [_get_video_metadata_ffprobe] after [json.loads]. *)
Definition extract_metadata (data : pyobj) : option FfprobeMetadata :=
  (* Find video stream *)
  streams ← py_get data "streams" (PList []);
  streams ← py_iter streams;
  video_stream ← find_video_stream streams;
  video_stream ← video_stream;   (* else: Exception("No video stream found") *)
  (* Extract metadata *)
  format_section ← py_get data "format" (PDict DNil);
  duration ← py_get format_section "duration" (PInt 0) ≫= float_of;
  width ← int_of (default (PInt 0) (dict_get "width" video_stream));
  height ← int_of (default (PInt 0) (dict_get "height" video_stream));
  fps ← parse_fps_of (default (PStr "0/1") (dict_get "r_frame_rate" video_stream));
  bitrate ← py_get format_section "bit_rate" (PInt 0) ≫= int_of;
  file_size ← py_get format_section "size" (PInt 0) ≫= int_of;
  aspect_ratio ← (if 0 <? height then true_div width height else Some 0%float);
  Some {| duration := duration;
          width := width;
          height := height;
          aspect_ratio := aspect_ratio;
          file_size := file_size;
          format := default (PStr "unknown") (dict_get "codec_name" video_stream);
          bitrate := bitrate;
          fps := fps |}.

(** Get detailed video metadata using ffprobe. [run] is the subprocess:
    [None] when it cannot be started. *)
Definition _get_video_metadata_ffprobe (run : string -> option Subprocess)
    (video_path : string) : option FfprobeMetadata :=
  process ← run video_path;
  if negb (returncode process =? 0) then None   (* Exception("ffprobe failed: ...") *)
  else
    data ← stdout_json process;
    extract_metadata data.

End Builtins.

End VideoProbe.

(* ===================================================================== *)
(** ** The retry decorator of tenacity *)
(* ===================================================================== *)

(** Both uploaders import [retry], [stop_after_attempt] and
    [wait_exponential] from the tenacity package. The package is not part
    of the repository; the decorator is written here after its
    documentation: the wrapped coroutine is run again after every raise,
    the scheduler sleeps [wait] seconds in between, and once [stop] holds
    the last failure is wrapped in a [RetryError]. *)
Module Tenacity.

Record policy := {
  (** [stop_after_attempt(n)] *)
  stop_after_attempt : nat;
  (** the seconds to sleep after the failure of attempt [k] (from 1) *)
  wait : nat -> Z
}.

(** [wait_exponential(multiplier, min, max)]:
    [multiplier * 2^(attempt - 1)] clamped to [[min, max]]. *)
Definition wait_exponential (multiplier min max : Z) (attempt_number : nat) : Z :=
  Z.max (Z.max 0 min) (Z.min (multiplier * 2 ^ (Z.of_nat attempt_number - 1)) max).

(** One call of a decorated function. *)
Record run (A : Type) := {
  result : outcome A;
  (** how many times the wrapped function ran *)
  attempts : nat;
  (** the sleeps between the attempts, in seconds *)
  waits : list Z
}.
Arguments result {A} r.
Arguments attempts {A} r.
Arguments waits {A} r.

(** [body k] is what the [k]-th run of the wrapped function does;
    [budget] counts the attempts still allowed after this one. *)
Fixpoint retry_from {A} (p : policy) (body : nat -> outcome A)
    (attempt_number : nat) (budget : nat) : run A :=
  match body attempt_number with
  | Returned a => {| result := Returned a; attempts := 1; waits := [] |}
  | Raised e =>
      match budget with
      | O =>
          {| result := Raised (Exn RetryError
                                 ("RetryError[<Future state=finished raised "
                                    ++ class_name (exn_kind e) ++ ">]"));
             attempts := 1; waits := [] |}
      | S budget' =>
          let later := retry_from p body (S attempt_number) budget' in
          {| result := result later;
             attempts := S (attempts later);
             waits := wait p attempt_number :: waits later |}
      end
  end.

(** [@retry(stop=stop_after_attempt(n), wait=w)] applied to [body]. *)
Definition retry {A} (p : policy) (body : nat -> outcome A) : run A :=
  retry_from p body 1 (stop_after_attempt p - 1).

End Tenacity.

(* ===================================================================== *)
(** ** youtube_uploader.py *)
(* ===================================================================== *)

(** The line feed character. *)
Definition nl : string := String (ascii_of_nat 10) EmptyString.

Module YouTubeUploader.
Import PyStr.

(** Format video description with tags and Shorts optimization. *)
Definition _format_description (description : string) (tags : option (list string))
  : string :=
  let formatted_desc := description in
  (* Add tags as hashtags *)
  let formatted_desc :=
    match tags with
    | Some ((_ :: _) as tags) =>
        let hashtags :=
          map (fun tag => "#" ++ remove_char "#" (remove_char " " tag))
              (firstn 10 tags) in
        formatted_desc ++ nl ++ nl ++ join " " hashtags
    | _ => formatted_desc
    end in
  (* Ensure #Shorts is included *)
  let formatted_desc :=
    if negb (contains "#Shorts" formatted_desc)
       && negb (contains "#shorts" formatted_desc)
    then formatted_desc ++ nl ++ nl ++ "#Shorts"
    else formatted_desc in
  (* YouTube description limit is 5000 characters *)
  take (Z.to_nat 5000) formatted_desc.

(** What one call of [insert_request.next_chunk()] does before the
    upload is complete. *)
Inductive chunk_event :=
| Progress (status : option float)   (* returns [(status, None)] *)
| Fails (e : exn).                   (* raises *)

(** The video resource the API answers with once the upload is complete. *)
Record Response := {
  id : string;
  status : option pyobj;
  snippet : option pyobj
}.







(** The decorator on [upload]. *)
Definition upload_retry : Tenacity.policy :=
  {| Tenacity.stop_after_attempt := 3;
     Tenacity.wait := Tenacity.wait_exponential 1 4 10 |}.

(** [upload]: [body k] is the [k]-th run of its undecorated body. *)
Definition upload (body : nat -> outcome dict) : Tenacity.run dict :=
  Tenacity.retry upload_retry body.

(** Prepare video metadata: the [body] of the insert request that
    [upload] builds; [schedule_time] is given as [schedule_time.isoformat()]. *)
Definition upload_body (title description : string) (tags : option (list string))
    (privacy category_id : string) (schedule_time : option string) : dict :=
  let snippet :=
    dict_of [
      ("title", PStr (take 100 title));   (* YouTube title limit *)
      ("description", PStr (_format_description description tags));
      ("tags", PList (match tags with
                      | Some ((_ :: _) as tags) =>
                          map PStr (firstn 500 tags)   (* YouTube tag limit *)
                      | _ => []
                      end));
      ("categoryId", PStr category_id);
      ("defaultLanguage", PStr "en");
      ("defaultAudioLanguage", PStr "en")] in
  let status :=
    dict_of [
      ("privacyStatus", PStr privacy);
      ("selfDeclaredMadeForKids", PBool false);
      ("embeddable", PBool true);
      ("publicStatsViewable", PBool true)] in
  (* Add scheduled publish time *)
  let status :=
    match schedule_time with
    | Some publish_at =>
        (* Must be private for scheduled videos *)
        dict_set "privacyStatus" (PStr "private")
          (dict_set "publishAt" (PStr publish_at) status)
    | None => status
    end in
  dict_of [("snippet", PDict snippet); ("status", PDict status)].

(** [','.join(body.keys())], the [part] of the insert request *)
Definition upload_part (body : dict) : string :=
  join "," (map fst (dict_items body)).

Section Optimize.
(** The builtin [str(v)] on a list or a dictionary *)
Variable py_str : pyobj -> string.

(** Optimize video settings for YouTube Shorts. [list_response] is what
    [videos().list(part='snippet', id=video_id).execute()] does; the
    result is the [body] of the [videos().update] request, if one is made.
    Every exception ends in a warning. *)
Definition _optimize_for_shorts (video_id : string) (list_response : outcome pyobj)
  : option dict :=
  match list_response with
  | Raised _ => None
  | Returned video_response =>
      items ← py_item video_response "items";
      if truthy items then
        first ← match items with
                | PList (first :: _) => Some first
                | _ => None
                end;
        snippet ← py_item first "snippet";
        description ← py_get snippet "description" (PStr "");
        match py_in "#Shorts" description, py_in "#shorts" description with
        | Returned upper, Returned lower =>
            if negb upper && negb lower then
              (* Update description to include #Shorts *)
              let updated_description :=
                match description with
                | PStr text => text
                | _ => py_str description
                end ++ nl ++ nl ++ "#Shorts" in
              match snippet with
              | PDict snippet =>
                  Some (dict_of [
                    ("id", PStr video_id);
                    ("snippet",
                     PDict (dict_set "description" (PStr updated_description) snippet))])
              | _ => None
              end
            else None
        | _, _ => None
        end
      else None
  end.

End Optimize.

End YouTubeUploader.

(* ===================================================================== *)
(** ** instagram_uploader.py *)
(* ===================================================================== *)

Module InstagramUploader.




(** The decorator on [upload]. *)
Definition upload_retry : Tenacity.policy :=
  {| Tenacity.stop_after_attempt := 3;
     Tenacity.wait := Tenacity.wait_exponential 1 4 10 |}.

(** [upload]: [body k] is the [k]-th run of its undecorated body. *)
Definition upload (body : nat -> outcome dict) : Tenacity.run dict :=
  Tenacity.retry upload_retry body.

(** Format caption for Instagram with proper hashtags and limits. *)
Definition _format_caption (caption : string) : string :=
  (* Instagram caption limit is 2200 characters *)
  let caption :=
    if (2200 <? Z.of_nat (String.length caption)) then
      (* Truncate but preserve hashtags at the end *)
      let lines := PyStr.split "010" caption in
      let hashtag_lines :=
        List.filter (fun line => PyStr.startswith "#" (PyStr.strip line)) lines in
      let content_lines :=
        List.filter (fun line => negb (PyStr.startswith "#" (PyStr.strip line))) lines in
      let content := PyStr.join nl content_lines in
      let hashtags := PyStr.join nl hashtag_lines in
      (* Calculate space for hashtags *)
      let hashtag_space :=
        if String.eqb hashtags "" then 0 else Z.of_nat (String.length hashtags) + 2 in
      let max_content_length := 2200 - hashtag_space in
      let content :=
        if (max_content_length <? Z.of_nat (String.length content)) then
          PyStr.slice_to (max_content_length - 3) content ++ "..."
        else content in
      if String.eqb hashtags "" then content else content ++ nl ++ nl ++ hashtags
    else caption in
  (* Ensure #Reels hashtag is included *)
  if negb (PyStr.contains "#Reels" caption) && negb (PyStr.contains "#reels" caption)
  then caption ++ nl ++ nl ++ "#Reels"
  else caption.

End InstagramUploader.

(* ===================================================================== *)
(** ** upload_video.py *)
(* ===================================================================== *)

Module VideoUploader.
Import PyStr.

(** Result of a video upload attempt. *)
Record UploadResult := {
  platform : string;
  success : bool;
  video_id : option string;
  video_url : option string;
  error_message : option string;
  upload_duration : float
}.

(** [video_source]: bytes, or a path given as [str] or [Path]. *)
Inductive VideoSource :=
| Bytes (data : list Byte.byte)
| PathLike (path : string).

(** What an invocation does to the outside, in order. *)
Inductive Event :=
| TempFileCreated (name : string)
| TempFileWritten (name : string) (size : Z)
| Validated (video_path : string)
| Gathered (coroutines : nat)
| UploadStarted (platform : string)
| Unlinked (name : string).

(** What is written to [sys.stdout]: a line of the loguru sink, of which
    the level and the message are kept (the format puts the time and the
    place of the call before them), or a document that
    [print(json.dumps(...))] writes. *)
Inductive Output :=
| Line (m : Loguru.Message)
| Document (doc : pyobj).

Record World := {
  (** the paths that exist, with their sizes *)
  files : gmap string Z;
  trace : list Event;
  (** standard output so far *)
  stdout : list Output
}.

(** What [tempfile.NamedTemporaryFile(suffix='.mp4', delete=False)] and
    the [write] and [close] after it do; the name is [stem ++ ".mp4"]. *)
Inductive tempfile_behaviour :=
| TempStored (stem : string)
| TempCreateFails (e : exn)
| TempWriteFails (stem : string) (e : exn).

(** The arguments [_upload_to_youtube] hands to the YouTube client. *)
Record YouTubeCall := {
  yt_video_path : string;
  yt_title : string;
  yt_description : string;
  yt_tags : option (list string);
  yt_privacy : string;
  yt_schedule_time : option string
}.

(** The arguments [_upload_to_instagram] hands to the Instagram client. *)
Record InstagramCall := {
  ig_video_path : string;
  ig_caption : string;
  ig_schedule_time : option string
}.

(** The entries read from the dictionaries the clients return:
    [result.get("id")], [result.get("pk")], [result.get("video_url")]. *)
Record YouTubeResult := { yt_id : option string }.
Record InstagramResult := { ig_pk : option string; ig_video_url : option string }.

Record VideoUploader := {
  config : ConfigManager.ConfigManager;
  (** the [VideoValidator()] instance; it is built without the
      configuration *)
  validator : VideoValidator.Externals
}.

(** The orchestrator's view of the outside world. *)
Record Externals := {
  tempfile : tempfile_behaviour;
  (** [await self.youtube_uploader.upload(...)]; the client holds the
      configuration *)
  youtube_upload : ConfigManager.ConfigManager -> YouTubeCall -> outcome YouTubeResult;
  (** [await self.instagram_uploader.upload(...)] *)
  instagram_upload :
    ConfigManager.ConfigManager -> InstagramCall -> outcome InstagramResult;
  (** [(datetime.now() - start_time).total_seconds()] in either client *)
  youtube_seconds : float;
  instagram_seconds : float;
  (** what either client hands to the logger during [upload] *)
  youtube_log : ConfigManager.ConfigManager -> YouTubeCall -> list Loguru.Message;
  instagram_log : ConfigManager.ConfigManager -> InstagramCall -> list Loguru.Message
}.

(** Computations that change the world and may raise. *)
Definition M (A : Type) : Type := World -> outcome A * World.

#[global] Instance M_ret : MRet M := fun A a w => (Returned a, w).
#[global] Instance M_bind : MBind M := fun A B f m w =>
  match m w with
  | (Returned a, w') => f a w'
  | (Raised e, w') => (Raised e, w')
  end.

Definition lift {A} (o : outcome A) : M A := fun w => (o, w).

Definition emit (ev : Event) : M unit := fun w =>
  (Returned tt,
   {| files := files w; trace := append (trace w) ev; stdout := stdout w |}).

Definition write_file (name : string) (size : Z) : M unit := fun w =>
  (Returned tt,
   {| files := <[name := size]> (files w); trace := trace w; stdout := stdout w |}).

(** A call of the logger. The sink that [VideoUploader.__init__] adds on
    [sys.stdout] has [level="INFO"]; the sink on the file [uploads.log],
    which takes every level, is left out. *)
Definition log (m : Loguru.Message) : M unit := fun w =>
  (Returned tt,
   {| files := files w; trace := trace w;
      stdout := if Loguru.passes Loguru.INFO m then append (stdout w) (Line m)
                else stdout w |}).

Fixpoint log_all (ms : list Loguru.Message) : M unit :=
  match ms with
  | [] => mret tt
  | m :: ms' => _ ← log m; log_all ms'
  end.


(** [os.unlink(name)] *)
Definition unlink (name : string) : M unit := fun w =>
  match files w !! name with
  | Some _ =>
      (Returned tt,
       {| files := delete name (files w); trace := append (trace w) (Unlinked name);
          stdout := stdout w |})
  | None =>
      (Raised (Exn OSError ("[Errno 2] No such file or directory: '" ++ name ++ "'")), w)
  end.

(** [try: body finally: final] *)
Definition try_finally {A} (body : M A) (final : M unit) : M A := fun w =>
  let '(r, w1) := body w in
  match final w1 with
  | (Returned _, w2) => (r, w2)
  | (Raised e, w2) => (Raised e, w2)
  end.

(** The first statements of the [try]: the source becomes [video_path].
    The second component is [temp_file_path] as the [finally] sees it. *)
Definition handle_source (x : Externals) (video_source : VideoSource)
  : World -> (outcome string * option string) * World := fun w =>
  match video_source with
  | Bytes data =>
      (* Create temporary file for bytes data *)
      match tempfile x with
      | TempCreateFails e => ((Raised e, None), w)
      | TempWriteFails stem e =>
          let name := stem ++ ".mp4" in
          let '(_, w) := (_ ← write_file name 0; emit (TempFileCreated name)) w in
          ((Raised e, None), w)
      | TempStored stem =>
          let name := stem ++ ".mp4" in
          let size := Z.of_nat (List.length data) in
          let '(_, w) :=
            (_ ← write_file name 0;
             _ ← emit (TempFileCreated name);
             _ ← write_file name size;
             emit (TempFileWritten name size)) w in
          ((Returned name, Some name), w)
      end
  | PathLike path => ((Returned path, None), w)
  end.

(** The [finally]: cleanup of the temporary file. *)
Definition cleanup (temp_file_path : option string) : M unit := fun w =>
  match temp_file_path with
  | Some name =>
      if negb (String.eqb name "") && path_exists (files w) name
      then (_ ← unlink name;
            log (Loguru.debug ("Cleaned up temporary file: " ++ name))) w
      else (Returned tt, w)
  | None => (Returned tt, w)
  end.

(** Upload video to YouTube. *)
Definition _upload_to_youtube (self : VideoUploader) (x : Externals)
    (video_path title description : string) (tags : option (list string))
    (privacy : string) (schedule_time : option string) : M UploadResult :=
  _ ← emit (UploadStarted "youtube");
  _ ← log (Loguru.info "Starting YouTube upload...");
  let call :=
    {| yt_video_path := video_path; yt_title := title;
       yt_description := description; yt_tags := tags;
       yt_privacy := privacy; yt_schedule_time := schedule_time |} in
  _ ← log_all (youtube_log x (config self) call);
  match youtube_upload x (config self) call with
  | Returned result =>
      mret {| platform := "youtube";
              success := true;
              video_id := yt_id result;
              video_url := Some ("https://youtube.com/watch?v="
                                   ++ str_of_optional (yt_id result));
              error_message := None;
              upload_duration := youtube_seconds x |}
  | Raised e =>
      _ ← log (Loguru.error ("YouTube upload failed: " ++ exn_str e));
      mret {| platform := "youtube";
              success := false;
              video_id := None;
              video_url := None;
              error_message := Some (exn_str e);
              upload_duration := youtube_seconds x |}
  end.

(** Upload video to Instagram. *)
Definition _upload_to_instagram (self : VideoUploader) (x : Externals)
    (video_path caption : string) (schedule_time : option string) : M UploadResult :=
  _ ← emit (UploadStarted "instagram");
  _ ← log (Loguru.info "Starting Instagram upload...");
  let call :=
    {| ig_video_path := video_path; ig_caption := caption;
       ig_schedule_time := schedule_time |} in
  _ ← log_all (instagram_log x (config self) call);
  match instagram_upload x (config self) call with
  | Returned result =>
      mret {| platform := "instagram";
              success := true;
              video_id := ig_pk result;
              video_url := ig_video_url result;
              error_message := None;
              upload_duration := instagram_seconds x |}
  | Raised e =>
      _ ← log (Loguru.error ("Instagram upload failed: " ++ exn_str e));
      mret {| platform := "instagram";
              success := false;
              video_id := None;
              video_url := None;
              error_message := Some (exn_str e);
              upload_duration := instagram_seconds x |}
  end.

(** The coroutines run one after the other, each to its end: none of
    them yields to the loop before its blocking client call is over. *)
Fixpoint run_all {A} (tasks : list (M A)) : World -> list (outcome A) * World :=
  fun w =>
  match tasks with
  | [] => ([], w)
  | task :: tasks' =>
      let '(r, w1) := task w in
      let '(rs, w2) := run_all tasks' w1 in
      (r :: rs, w2)
  end.

(** [await asyncio.gather] over the tasks, with [return_exceptions=True] *)
Definition gather {A} (tasks : list (M A)) : M (list (outcome A)) := fun w =>
  let '(_, w) := emit (Gathered (List.length tasks)) w in
  let '(rs, w) := run_all tasks w in
  (Returned rs, w).

(** [UploadResult(platform=..., success=False, error_message=...)] *)
Definition failed (platform : string) (msg : string) : UploadResult :=
  {| platform := platform; success := false; video_id := None; video_url := None;
     error_message := Some msg; upload_duration := 0%float |}.

(** The loop over [enumerate(results)]. *)
Fixpoint process_results (platforms : list string) (i : nat)
    (results : list (outcome UploadResult)) : outcome (list UploadResult) :=
  match results with
  | [] => mret []
  | Raised e :: results' =>
      match platforms !! i with
      | Some platform =>
          rest ← process_results platforms (S i) results';
          mret (failed platform (exn_str e) :: rest)
      | None => Raised (Exn IndexError "list index out of range")
      end
  | Returned result :: results' =>
      rest ← process_results platforms (S i) results';
      mret (result :: rest)
  end.

(** [await self.validator.validate_video(video_path)], with what it
    logs. *)
Definition validate (self : VideoUploader) (video_path : string)
  : M VideoValidator.ValidationResult := fun w =>
  (_ ← log_all (VideoValidator.validate_video_log (validator self) (files w) video_path);
   mret (VideoValidator.validate_video (validator self) (files w) video_path)) w.

(** The summary logged before the results are returned: the counts, the
    successful results, the failed ones. The marks U+2713 and U+2717
    stand as their UTF-8 bytes. *)
Definition log_summary (upload_results : list UploadResult) : M unit :=
  let successful := List.filter (fun r => success r) upload_results in
  let failed := List.filter (fun r => negb (success r)) upload_results in
  _ ← log (Loguru.info ("Upload completed. Successful: "
                          ++ pretty (List.length successful)
                          ++ ", Failed: " ++ pretty (List.length failed)));
  _ ← log_all
        (map (fun result =>
                Loguru.info ("✓ " ++ platform result ++ ": "
                               ++ str_of_optional (video_url result)
                               ++ " (ID: " ++ str_of_optional (video_id result) ++ ")"))
           successful);
  log_all
    (map (fun result =>
            Loguru.error ("✗ " ++ platform result ++ ": "
                            ++ str_of_optional (error_message result)))
       failed).

(** The [try] of [upload_video] from the validation on. *)
Definition validate_and_upload (self : VideoUploader) (x : Externals)
    (video_path title description : string)
    (tags : option (list string)) (privacy : string)
    (instagram_caption : option string) (schedule_time : option string)
    (platforms : list string) : M (list UploadResult) :=
  (* Validate video *)
  _ ← emit (Validated video_path);
  validation_result ← validate self video_path;
  if negb (VideoValidator.is_valid validation_result) then
    let error_msg :=
      "Video validation failed: "
        ++ str_of_optional (VideoValidator.error_message validation_result) in
    _ ← log (Loguru.error error_msg);
    mret (map (fun platform => failed platform error_msg) platforms)
  else
    (* Prepare upload tasks *)
    let upload_tasks := [] in
    let upload_tasks :=
      if mem "youtube" platforms then
        append upload_tasks
          (_upload_to_youtube self x video_path title description tags privacy
             schedule_time)
      else upload_tasks in
    let upload_tasks :=
      if mem "instagram" platforms then
        let caption :=
          if falsy instagram_caption then title ++ nl ++ nl ++ description
          else default "" instagram_caption in
        append upload_tasks
          (_upload_to_instagram self x video_path caption schedule_time)
      else upload_tasks in
    (* Execute uploads concurrently *)
    results ← gather upload_tasks;
    (* Process results *)
    upload_results ← lift (process_results platforms 0 results);
    (* Log summary *)
    _ ← log_summary upload_results;
    mret upload_results.

(** Upload video to specified platforms. *)
Definition upload_video (self : VideoUploader) (x : Externals)
    (video_source : VideoSource) (title description : string)
    (tags : option (list string)) (privacy : string)
    (instagram_caption : option string) (schedule_time : option string)
    (platforms : option (list string)) : M (list UploadResult) := fun w =>
  let platforms := default ["youtube"; "instagram"] platforms in
  let '(_, w) :=
    log (Loguru.info ("Starting upload to platforms: " ++ repr_strings platforms)) w in
  (* Handle video source *)
  let '((source, temp_file_path), w) := handle_source x video_source w in
  try_finally
    (video_path ← lift source;
     validate_and_upload self x video_path title description tags privacy
       instagram_caption schedule_time platforms)
    (* Cleanup temporary file *)
    (cleanup temp_file_path)
    w.







Section Main.
Variable py_int : string -> option Z.
Variable py_float : string -> option float.
(** [datetime.fromisoformat]; a datetime is kept as its text *)
Variable fromisoformat : string -> outcome string.

(** [VideoUploader(config_path)]; [probe] is what the validator built
    here will observe. The sinks of the logger are set last: what the
    constructors log goes to the sink loguru starts with, on [sys.stderr],
    and from here on the messages at INFO or above go to [sys.stdout]. *)
Definition __init__ (cx : ConfigManager.Externals)
    (probe : VideoValidator.Externals) (config_path : option string)
  : outcome VideoUploader :=
  config ← ConfigManager.__init__ py_int py_float cx config_path;
  mret {| config := config; validator := probe |}.

End Main.

End VideoUploader.

(* ===================================================================== *)
(** ** The vocabulary of the statements *)
(* ===================================================================== *)

Module Spec.
Import PyStr.

(** *** Configuration *)

(** The coercion of an environment variable, case by case: a boolean
    word, else an integer, else a float, else the text itself. *)
Definition convert_env_value_spec (py_int : string -> option Z)
    (py_float : string -> option float) (s : string) : pyobj :=
  if String.eqb (lower s) "true" then PBool true
  else if String.eqb (lower s) "false" then PBool false
  else match py_int s, py_float s with
       | Some n, _ => PInt n
       | None, Some f => PFloat f
       | None, None => PStr s
       end.

(** Every segment of [keys] is absent from the dictionary reached so far
    or names a nested dictionary. *)
Fixpoint walkable (current : dict) (keys : list string) : bool :=
  match keys with
  | [] => true
  | key :: keys' =>
      match dict_get key current with
      | None => true
      | Some (PDict sub) => walkable sub keys'
      | Some _ => false
      end
  end.

(** The intermediate segments of a dotted key: [keys[:-1]]. *)
Definition intermediate (key_path : string) : list string :=
  removelast (split "." key_path).

(** Two key paths part ways: at some position they hold different
    segments, so neither is a prefix of the other. *)
Fixpoint diverge (p q : list string) : bool :=
  match p, q with
  | a :: p', b :: q' => if String.eqb a b then diverge p' q' else true
  | _, _ => false
  end.

(** The keys of a dictionary, and of the dictionaries nested in it, are
    pairwise different, as in every Python [dict]. *)
Fixpoint unique_keys (d : dict) : bool :=
  match d with
  | DNil => true
  | DCons k v rest =>
      match dict_get k rest with
      | None =>
          match v with
          | PDict sub => unique_keys sub
          | _ => true
          end && unique_keys rest
      | Some _ => false
      end
  end.

(** The dictionary of the config file that the constructor merges, if
    there is one. *)
Definition file_config (x : ConfigManager.Externals) (config_path : option string)
  : option dict :=
  match ConfigManager.resolve_path x config_path with
  | Some path =>
      if negb (String.eqb path "") && ConfigManager.file_exists x path then
        match ConfigManager.parse_config x path with
        | Returned (PDict f) => Some f
        | _ => None
        end
      else None
  | None => None
  end.

(** The configuration once defaults and file are in, before the
    environment is read. *)
Definition merged (x : ConfigManager.Externals) (config_path : option string) : dict :=
  ConfigManager.config_data
    (ConfigManager._load_config_file x
       (ConfigManager._load_defaults
          {| ConfigManager.config_data := DNil;
             ConfigManager.config_path := config_path |})).

(** The key paths of a list part ways two by two. *)
Fixpoint pairwise_diverge (paths : list (list string)) : bool :=
  match paths with
  | [] => true
  | p :: paths' => forallb (diverge p) paths' && pairwise_diverge paths'
  end.

(** The mapped variables that are set, with their values. *)
Definition set_variable (x : ConfigManager.Externals) (env_var config_key value : string)
  : Prop :=
  In (env_var, config_key) ConfigManager.env_mappings
  /\ ConfigManager.load_dotenv x !! env_var = Some value.

(** *** Validation *)

Import VideoValidator.

Definition duration_out_of_range (m : Metadata) : bool :=
  (md_duration m <? 1.0)%float || (90 <? md_duration m)%float.

Definition resolution_known (m : Metadata) : bool :=
  (0 <? md_width m) && (0 <? md_height m).

Definition resolution_out_of_range (m : Metadata) : bool :=
  resolution_known m
  && (((md_width m <? 720) || (md_height m <? 1280))
      || ((1080 <? md_width m) || (1920 <? md_height m))).

Definition aspect_ratio_known (m : Metadata) : bool :=
  (0 <? md_aspect_ratio m)%float.

Definition aspect_ratio_off (m : Metadata) : bool :=
  aspect_ratio_known m
  && ((1.0 <? md_aspect_ratio m)%float
      || (0.1 <? abs (md_aspect_ratio m - 9 / 16))%float).

(** The file is missing, has the wrong extension, is too large or empty. *)
Definition file_rejected (files : gmap string Z) (video_path : string) : bool :=
  negb (path_exists files video_path)
  || negb (mem (lower (path_suffix video_path)) [".mp4"; ".mov"; ".avi"])
  || match files !! video_path with
     | Some size => (500 * 1024 * 1024 <? size) || (size =? 0)
     | None => false
     end.

(** The metadata the validator obtains for a file it goes on to probe. *)
Definition probed (x : Externals) (files : gmap string Z) (video_path : string)
  : outcome Metadata :=
  if ffprobe_available x then ffprobe x video_path
  else _get_basic_metadata x files video_path.

(** The conditions of invalidity, as an enumeration of the file checks and
    the three metadata checks alone. *)
Definition listed_conditions (x : Externals) (files : gmap string Z)
    (video_path : string) : bool :=
  file_rejected files video_path
  || match probed x files video_path with
     | Returned m =>
         duration_out_of_range m || resolution_out_of_range m || aspect_ratio_off m
     | Raised _ => false
     end.

(** The conditions the code implements: a probe that raises rejects the
    video too, and the aspect ratio is looked at for a known resolution. *)
Definition rejected (x : Externals) (files : gmap string Z) (video_path : string)
  : bool :=
  file_rejected files video_path
  || match probed x files video_path with
     | Returned m =>
         duration_out_of_range m || resolution_out_of_range m
         || (resolution_known m && aspect_ratio_off m)
     | Raised _ => true
     end.

(** The message of a check, when the check fails. *)
Definition when (failed : bool) (message : string) : list string :=
  if failed then [message] else [].

(** One message for each metadata check that fails, in the order of the
    checks: duration too short, too long, resolution too low, too high,
    aspect ratio. *)
Definition metadata_messages (m : Metadata) : list string :=
  let d := md_duration m in
  let w := md_width m in
  let h := md_height m in
  let a := md_aspect_ratio m in
  List.app
    (when (d <? 1.0)%float
       ("Video too short: " ++ PyFloat.format_fixed 1 d ++ "s (min: 1.0s)"))
    (List.app
       (when (90 <? d)%float
          ("Video too long: " ++ PyFloat.format_fixed 1 d
             ++ "s (max: 90s for Reels, 60s for Shorts)"))
       (if resolution_known m then
          List.app
            (when ((w <? 720) || (h <? 1280))
               ("Resolution too low: " ++ pretty w ++ "x" ++ pretty h
                  ++ " (min: 720x1280)"))
            (List.app
               (when ((1080 <? w) || (1920 <? h))
                  ("Resolution too high: " ++ pretty w ++ "x" ++ pretty h
                     ++ " (max: 1080x1920)"))
               (if aspect_ratio_known m then
                  if (1.0 <? a)%float then
                    ["Video is landscape (" ++ PyFloat.format_fixed 2 a
                       ++ "). Vertical videos (9:16) work best for Shorts/Reels"]
                  else
                    when (0.1 <? abs (a - 9 / 16))%float
                      ("Aspect ratio " ++ PyFloat.format_fixed 2 a
                         ++ " may not be optimal. Preferred: 0.56 (9:16)")
                else []))
        else [])).

(** The message of an invalid result, by its cause; the causes are taken
    in this order and the first that holds decides. The metadata checks
    count as one cause: their messages are joined by "; ". *)
Definition cause_message (x : Externals) (files : gmap string Z)
    (video_path : string) : option string :=
  match files !! video_path with
  | None => Some ("Video file not found: " ++ video_path)
  | Some size =>
      let extension := lower (path_suffix video_path) in
      if negb (mem extension [".mp4"; ".mov"; ".avi"]) then
        Some ("Unsupported format: " ++ extension
                ++ ". Supported: ['.mp4', '.mov', '.avi']")
      else if (500 * 1024 * 1024 <? size) then
        Some ("File too large: "
                ++ PyFloat.format_fixed 1 (PyFloat.of_Z size / 1024 / 1024)%float
                ++ "MB. Max: 500.0MB")
      else if (size =? 0) then Some "Video file is empty"
      else
        match probed x files video_path with
        | Raised e => Some ("Validation error: " ++ exn_str e)
        | Returned m =>
            match metadata_messages m with
            | [] => None
            | messages => Some (join "; " messages)
            end
        end
  end.

(** *** Orchestration *)

Import VideoUploader.

(** The platforms for which a coroutine is made, in the order of the
    tasks. *)
Definition started (platforms : list string) : list string :=
  ((if mem "youtube" platforms then ["youtube"] else [])
   ++ (if mem "instagram" platforms then ["instagram"] else []))%list.

(** What [_upload_to_youtube] returns. *)
Definition youtube_result (self : VideoUploader) (x : VideoUploader.Externals)
    (call : YouTubeCall) : UploadResult :=
  match youtube_upload x (config self) call with
  | Returned result =>
      {| platform := "youtube"; success := true; video_id := yt_id result;
         video_url := Some ("https://youtube.com/watch?v="
                              ++ str_of_optional (yt_id result));
         error_message := None; upload_duration := youtube_seconds x |}
  | Raised e =>
      {| platform := "youtube"; success := false; video_id := None;
         video_url := None; error_message := Some (exn_str e);
         upload_duration := youtube_seconds x |}
  end.

(** What [_upload_to_instagram] returns. *)
Definition instagram_result (self : VideoUploader) (x : VideoUploader.Externals)
    (call : InstagramCall) : UploadResult :=
  match instagram_upload x (config self) call with
  | Returned result =>
      {| platform := "instagram"; success := true; video_id := ig_pk result;
         video_url := ig_video_url result;
         error_message := None; upload_duration := instagram_seconds x |}
  | Raised e =>
      {| platform := "instagram"; success := false; video_id := None;
         video_url := None; error_message := Some (exn_str e);
         upload_duration := instagram_seconds x |}
  end.

(** The caption sent to Instagram. *)
Definition caption_for (instagram_caption : option string)
    (title description : string) : string :=
  if falsy instagram_caption then title ++ nl ++ nl ++ description
  else default "" instagram_caption.

(** The results of the uploads of a valid video, one per coroutine. *)
Definition upload_results (self : VideoUploader) (x : VideoUploader.Externals)
    (video_path title description : string) (tags : option (list string))
    (privacy : string) (instagram_caption schedule_time : option string)
    (platforms : list string) : list UploadResult :=
  ((if mem "youtube" platforms then
      [youtube_result self x
         {| yt_video_path := video_path; yt_title := title;
            yt_description := description; yt_tags := tags;
            yt_privacy := privacy; yt_schedule_time := schedule_time |}]
    else [])
   ++ (if mem "instagram" platforms then
         [instagram_result self x
            {| ig_video_path := video_path;
               ig_caption := caption_for instagram_caption title description;
               ig_schedule_time := schedule_time |}]
       else []))%list.

(** The results for a video the validator rejects with message [msg]. *)
Definition rejection_results (msg : option string) (platforms : list string)
  : list UploadResult :=
  map (fun platform =>
         failed platform ("Video validation failed: " ++ str_of_optional msg))
      platforms.

(** The events of the [try] from the validation on. *)
Definition upload_events (valid : bool) (video_path : string)
    (platforms : list string) : list Event :=
  if valid then
    (Validated video_path :: Gathered (List.length (started platforms))
       :: map UploadStarted (started platforms))%list
  else [Validated video_path].


(** An event that tells of a coroutine gathered or started. *)
Definition is_upload_event (ev : Event) : bool :=
  match ev with
  | Gathered _ | UploadStarted _ => true
  | _ => false
  end.





(** Standard output grew by lines of the logger only. *)
Definition only_lines (before after : list Output) : Prop :=
  exists lines, after = (before ++ map Line lines)%list.

(** *** Retries *)




(** *** Merging, chunks, captions *)

(** The update does not reach the key path: on the way down, one of the
    segments is absent from it. *)
Fixpoint unmentioned (update : dict) (keys : list string) : bool :=
  match keys with
  | [] => false
  | key :: keys' =>
      match dict_get key update with
      | None => true
      | Some (PDict sub) => unmentioned sub keys'
      | Some _ => false
      end
  end.

(** The exceptions of the calls of [next_chunk] that raise, in order. *)
Fixpoint failures (events : list YouTubeUploader.chunk_event) : list exn :=
  match events with
  | [] => []
  | YouTubeUploader.Progress _ :: events' => failures events'
  | YouTubeUploader.Fails e :: events' => e :: failures events'
  end.

(** The text has no character [c]. *)
Fixpoint free_of (c : ascii) (s : string) : bool :=
  match s with
  | EmptyString => true
  | String d s' => negb (Ascii.eqb d c) && free_of c s'
  end.

(** The description carries the hashtag of Shorts, in either case. *)
Definition has_shorts (s : string) : bool :=
  contains "#Shorts" s || contains "#shorts" s.

(** The caption carries the hashtag of Reels, in either case. *)
Definition has_reels (s : string) : bool :=
  contains "#Reels" s || contains "#reels" s.

(** The lines of a caption that [_format_caption] takes for hashtags,
    joined as it joins them. *)
Definition hashtag_text (caption : string) : string :=
  join nl (List.filter (fun line => startswith "#" (strip line))
             (split "010" caption)).

(** *** The report of ffprobe *)

(** A stream of the report that the search for the video stream passes
    over: a dictionary whose [codec_type] is not "video". *)
Definition other_stream (stream : pyobj) : bool :=
  match stream with
  | PDict d =>
      match dict_get "codec_type" d with
      | Some (PStr "video") => false
      | _ => true
      end
  | _ => false
  end.

(** The report [data] with [streams] as its list of streams. *)
Definition with_streams (data : dict) (streams : list pyobj) : pyobj :=
  PDict (dict_set "streams" (PList streams) data).

End Spec.

(* ===================================================================== *)
(** ** Sample inputs *)
(* ===================================================================== *)

Module Samples.

(** The configuration of defaults alone. *)
Definition default_manager : ConfigManager.ConfigManager :=
  {| ConfigManager.config_data := ConfigManager.defaults;
     ConfigManager.config_path := None |}.

(** The environment of [test_load_environment_variables], a [.env] file
    and a YAML file like the one of [test_init_with_config_file]. *)
Definition test_env : ConfigManager.Externals :=
  {| ConfigManager.environ :=
       {[ "YOUTUBE_CATEGORY_ID" := "35"; "INSTAGRAM_USERNAME" := "test_user";
          "MAX_FILE_SIZE" := "1000000000"; "LOG_LEVEL" := "DEBUG" ]};
     ConfigManager.dotenv := {[ "LOG_LEVEL" := "INFO"; "LOG_FILE" := "x.log" ]};
     ConfigManager.file_exists := fun p => String.eqb p "config.yml";
     ConfigManager.yaml_safe_load := fun _ =>
       Returned (PDict (dict_of [
         ("youtube", PDict (dict_of [("category_id", PStr "25");
                                     ("default_privacy", PStr "unlisted")]));
         ("custom_setting", PStr "test_value")]));
     ConfigManager.json_load := fun _ => Raised (Exn ValueError "not JSON") |}.

(** A JSON file that puts a number where the section [video] is, with one
    variable of that section set. *)
Definition scalar_section_env : ConfigManager.Externals :=
  {| ConfigManager.environ := {[ "MAX_FILE_SIZE" := "1000" ]};
     ConfigManager.dotenv := ∅;
     ConfigManager.file_exists := fun p => String.eqb p "c.json";
     ConfigManager.yaml_safe_load := fun _ => Raised (Exn ValueError "not YAML");
     ConfigManager.json_load := fun _ =>
       Returned (PDict (dict_of [("video", PInt 5)])) |}.

(** A validator with ffprobe at hand, and a file ffprobe cannot read. *)
Definition ffprobe_fails : VideoValidator.Externals :=
  {| VideoValidator.ffprobe_available := true;
     VideoValidator.ffprobe := fun _ =>
       Raised (Exn PlainException "No video stream found");
     VideoValidator.cv2_capture := fun _ => None;
     VideoValidator.cv2_failure := fun _ => VideoValidator.Cv2Missing |}.

(** A validator with ffprobe at hand, and a vertical clip of 30 seconds. *)
Definition ffprobe_vertical : VideoValidator.Externals :=
  {| VideoValidator.ffprobe_available := true;
     VideoValidator.ffprobe := fun _ =>
       Returned {| VideoValidator.md_duration := 30;
                   VideoValidator.md_width := 1080;
                   VideoValidator.md_height := 1920;
                   VideoValidator.md_aspect_ratio := 0.5625;
                   VideoValidator.md_file_size := 1000;
                   VideoValidator.md_format := "h264";
                   VideoValidator.md_bitrate := 4000000;
                   VideoValidator.md_fps := 30 |};
     VideoValidator.cv2_capture := fun _ => None;
     VideoValidator.cv2_failure := fun _ => VideoValidator.Cv2Missing |}.

(** One file of 1000 bytes. *)
Definition one_clip : gmap string Z := {[ "/data/clip.mp4" := 1000 ]}.

(** The video resource of a finished upload. *)
Definition video_response : YouTubeUploader.Response :=
  {| YouTubeUploader.id := "dQw4w9WgXcQ";
     YouTubeUploader.status := None;
     YouTubeUploader.snippet := None |}.



(** An uploader whose validator accepts the clip, and one whose
    validator cannot read it. *)
Definition uploader : VideoUploader.VideoUploader :=
  {| VideoUploader.config := default_manager;
     VideoUploader.validator := ffprobe_vertical |}.

Definition uploader_without_probe : VideoUploader.VideoUploader :=
  {| VideoUploader.config := default_manager;
     VideoUploader.validator := ffprobe_fails |}.

(** The clients of [test_upload_video_partial_failure]: YouTube accepts,
    Instagram refuses. *)
Definition clients : VideoUploader.Externals :=
  {| VideoUploader.tempfile := VideoUploader.TempStored "/tmp/tmpab12cd";
     VideoUploader.youtube_upload := fun _ _ =>
       Returned {| VideoUploader.yt_id := Some "test_youtube_id" |};
     VideoUploader.instagram_upload := fun _ _ =>
       Raised (Exn PlainException "Instagram upload failed");
     VideoUploader.youtube_seconds := 1.5;
     VideoUploader.instagram_seconds := 2.5;
     VideoUploader.youtube_log := fun _ _ => [];
     VideoUploader.instagram_log := fun _ _ => [] |}.

(** The same clients on a full disk: the write to the temporary file
    raises. *)
Definition full_disk : VideoUploader.Externals :=
  {| VideoUploader.tempfile :=
       VideoUploader.TempWriteFails "/tmp/tmpab12cd"
         (Exn OSError "[Errno 28] No space left on device");
     VideoUploader.youtube_upload := VideoUploader.youtube_upload clients;
     VideoUploader.instagram_upload := VideoUploader.instagram_upload clients;
     VideoUploader.youtube_seconds := 1.5;
     VideoUploader.instagram_seconds := 2.5;
     VideoUploader.youtube_log := fun _ _ => [];
     VideoUploader.instagram_log := fun _ _ => [] |}.

Definition start : VideoUploader.World :=
  {| VideoUploader.files := one_clip; VideoUploader.trace := [];
     VideoUploader.stdout := [] |}.

(** Fifteen bytes of video data. *)
Definition fake_video_data : list Byte.byte := repeat Byte.x66 15.

(** No environment, no [.env], no config file. *)
Definition bare_env : ConfigManager.Externals :=
  {| ConfigManager.environ := ∅;
     ConfigManager.dotenv := ∅;
     ConfigManager.file_exists := fun _ => false;
     ConfigManager.yaml_safe_load := fun _ => Raised (Exn OSError "no file");
     ConfigManager.json_load := fun _ => Raised (Exn OSError "no file") |}.

(** A file system where every directory can be made and every file
    written, except that [os.makedirs('')] raises FileNotFoundError as
    CPython's does. *)
Definition posix_fs : ConfigManager.FileSystem :=
  {| ConfigManager.exists_object := fun _ =>
       Raised (Exn TypeError "stat: path should be string, bytes, os.PathLike or integer");
     ConfigManager.data_dir_exists := true;
     ConfigManager.makedirs := fun name =>
       if String.eqb name "" then
         Raised (Exn OSError "[Errno 2] No such file or directory: ''")
       else Returned tt;
     ConfigManager.write_text := fun _ => Returned tt |}.

(** An environment whose [MAX_FILE_SIZE] is no number; every path exists,
    no config file can be read. *)
Definition text_size_env : ConfigManager.Externals :=
  {| ConfigManager.environ := {[ "MAX_FILE_SIZE" := "10 MB" ]};
     ConfigManager.dotenv := ∅;
     ConfigManager.file_exists := fun _ => true;
     ConfigManager.yaml_safe_load := fun _ => Raised (Exn OSError "unreadable");
     ConfigManager.json_load := fun _ => Raised (Exn OSError "unreadable") |}.

(** The report of ffprobe on a clip with an audio and a video stream. *)
Definition ffprobe_report : dict :=
  dict_of [
    ("streams", PList []);
    ("format", PDict (dict_of [("duration", PStr "12.5");
                               ("bit_rate", PStr "4000000");
                               ("size", PStr "1000")]))].

Definition audio_stream : pyobj :=
  PDict (dict_of [("codec_type", PStr "audio"); ("codec_name", PStr "aac")]).

Definition video_stream : dict :=
  dict_of [("codec_type", PStr "video"); ("codec_name", PStr "h264");
           ("width", PInt 1080); ("height", PInt 1920);
           ("r_frame_rate", PStr "30/1")].


End Samples.

(* ===================================================================== *)
(** * Properties *)
(* ===================================================================== *)

(** ** The helpers on strings and floats, on examples *)

Example format_half : PyFloat.format_fixed 1 0.5 = "0.5".
Proof. vm_compute. reflexivity. Qed.
Example format_tie_even : PyFloat.format_fixed 1 0.25 = "0.2".
Proof. vm_compute. reflexivity. Qed.
Example format_ratio : PyFloat.format_fixed 2 0x1.2p-1 = "0.56".
Proof. vm_compute. reflexivity. Qed.
Example format_hundred : PyFloat.format_fixed 1 (PyFloat.of_Z 100) = "100.0".
Proof. vm_compute. reflexivity. Qed.
Example suffix_upper : PyStr.lower (PyStr.path_suffix "/tmp/clip.final.MP4") = ".mp4".
Proof. vm_compute. reflexivity. Qed.
Example suffix_hidden : PyStr.path_suffix "/home/u/.mp4" = "".
Proof. vm_compute. reflexivity. Qed.
Example split_empty : PyStr.split "." "" = [""].
Proof. reflexivity. Qed.
Example split_dots : PyStr.split "." "a..b." = ["a"; ""; "b"; ""].
Proof. reflexivity. Qed.

(** ** The cases of the test suites *)

(** [test_convert_env_value] *)
Example convert_env_value_tests :
  map (ConfigManager._convert_env_value PyParse.int_ PyParse.float_)
    ["true"; "false"; "True"; "False"; "123"; "-456"; "123.45"; "test_string"]
  = [PBool true; PBool false; PBool true; PBool false; PInt 123; PInt (-456);
     PFloat 123.45; PStr "test_string"].
Proof. vm_compute. reflexivity. Qed.

(** [test_init_with_defaults] and [test_get_with_dot_notation] *)
Example init_with_defaults :
  match ConfigManager.__init__ PyParse.int_ PyParse.float_ Samples.bare_env None with
  | Returned config =>
      [ConfigManager.get config "youtube.category_id" PNone;
       ConfigManager.get config "video.max_duration_youtube" PNone;
       ConfigManager.get config "video.max_file_size" PNone;
       ConfigManager.get config "nonexistent.key" (PStr "default");
       ConfigManager.get config "nonexistent.key" PNone;
       ConfigManager.get_section config "nonexistent"]
  | Raised _ => []
  end
  = [PStr "22"; PInt 60; PInt (500 * 1024 * 1024); PStr "default"; PNone; PDict DNil].
Proof. vm_compute. reflexivity. Qed.

(** [test_load_environment_variables]: the variable wins, and its text
    "35" becomes the integer 35. *)
Example load_environment_variables :
  match ConfigManager.__init__ PyParse.int_ PyParse.float_ Samples.test_env None with
  | Returned config =>
      [ConfigManager.get config "youtube.category_id" PNone;
       ConfigManager.get config "instagram.username" PNone;
       ConfigManager.get config "video.max_file_size" PNone;
       ConfigManager.get config "logging.level" PNone;
       ConfigManager.get config "logging.file_path" PNone;
       ConfigManager.get config "custom_setting" PNone]
  | Raised _ => []
  end
  = [PInt 35; PStr "test_user"; PInt 1000000000; PStr "DEBUG"; PStr "x.log";
     PStr "test_value"].
Proof. vm_compute. reflexivity. Qed.

(** [test_deep_merge] *)
Example deep_merge_test :
  ConfigManager._deep_merge
    (dict_of [("section1", PDict (dict_of [("key1", PStr "value1");
                                           ("key2", PStr "value2")]));
              ("section2", PDict (dict_of [("key3", PStr "value3")]))])
    (dict_of [("section1", PDict (dict_of [("key2", PStr "new_value2");
                                           ("key4", PStr "value4")]));
              ("section3", PDict (dict_of [("key5", PStr "value5")]))])
  = dict_of [("section1", PDict (dict_of [("key1", PStr "value1");
                                          ("key2", PStr "new_value2");
                                          ("key4", PStr "value4")]));
             ("section2", PDict (dict_of [("key3", PStr "value3")]));
             ("section3", PDict (dict_of [("key5", PStr "value5")]))].
Proof. vm_compute. reflexivity. Qed.

(** [test_validate_metadata_landscape_video] *)
Example validate_metadata_landscape :
  VideoValidator._validate_metadata
    {| VideoValidator.md_duration := 30; VideoValidator.md_width := 1920;
       VideoValidator.md_height := 1080;
       VideoValidator.md_aspect_ratio := (1920 / 1080)%float;
       VideoValidator.md_file_size := 0; VideoValidator.md_format := "";
       VideoValidator.md_bitrate := 0; VideoValidator.md_fps := 0 |}
  = ["Resolution too low: 1920x1080 (min: 720x1280)";
     "Resolution too high: 1920x1080 (max: 1080x1920)";
     "Video is landscape (1.78). Vertical videos (9:16) work best for Shorts/Reels"].
Proof. vm_compute. reflexivity. Qed.

(** [test_get_basic_metadata_no_opencv]: without ffprobe and OpenCV every
    file is too short. *)
Example basic_metadata_fallback :
  VideoValidator.error_message
    (VideoValidator.validate_video
       {| VideoValidator.ffprobe_available := false;
          VideoValidator.ffprobe := fun _ => Raised (Exn PlainException "");
          VideoValidator.cv2_capture := fun _ => None;
     VideoValidator.cv2_failure := fun _ => VideoValidator.Cv2Missing |}
       Samples.one_clip "/data/clip.mp4")
  = Some "Video too short: 0.0s (min: 1.0s)".
Proof. vm_compute. reflexivity. Qed.

(** The tags become hashtags, and the hashtag of Shorts comes last. *)
Example format_description_tags :
  YouTubeUploader._format_description "hello" (Some ["a b"; "#c"; "d"])
  = "hello" ++ nl ++ nl ++ "#ab #c #d" ++ nl ++ nl ++ "#Shorts".
Proof. vm_compute. reflexivity. Qed.

(** [test_upload_video_partial_failure], with the bytes in a temporary
    file. *)
Example upload_partial_failure :
  let '(results, w) :=
    VideoUploader.upload_video Samples.uploader Samples.clients
      (VideoUploader.Bytes Samples.fake_video_data) "Test Video" "Test Description"
      None "public" None None (Some ["youtube"; "instagram"]) Samples.start in
  (match results with
   | Returned rs => map (fun r => (VideoUploader.platform r, VideoUploader.success r)) rs
   | Raised _ => []
   end,
   VideoUploader.trace w)
  = ([("youtube", true); ("instagram", false)],
     [VideoUploader.TempFileCreated "/tmp/tmpab12cd.mp4";
      VideoUploader.TempFileWritten "/tmp/tmpab12cd.mp4" 15;
      VideoUploader.Validated "/tmp/tmpab12cd.mp4";
      VideoUploader.Gathered 2;
      VideoUploader.UploadStarted "youtube";
      VideoUploader.UploadStarted "instagram";
      VideoUploader.Unlinked "/tmp/tmpab12cd.mp4"]).
Proof. vm_compute. reflexivity. Qed.

(* ===================================================================== *)
(** ** Dictionaries *)
(* ===================================================================== *)

Section DictFacts.
Implicit Types (d : dict) (k : string) (v : pyobj).

Lemma dict_get_set_eq k v d : dict_get k (dict_set k v d) = Some v.
Proof.
  induction d as [|k' v' rest IH]; simpl.
  - by rewrite String.eqb_refl.
  - destruct (String.eqb k k') eqn:E; simpl; rewrite E; [done | exact IH].
Qed.

Lemma dict_get_set_ne k k' v d :
  k <> k' -> dict_get k' (dict_set k v d) = dict_get k' d.
Proof.
  intros Hne. induction d as [|k0 v0 rest IH]; simpl.
  - apply String.eqb_neq in Hne. rewrite String.eqb_sym in Hne. by rewrite Hne.
  - destruct (String.eqb k k0) eqn:E; simpl.
    + apply String.eqb_eq in E. subst k0.
      destruct (String.eqb k' k) eqn:E'; [|done].
      apply String.eqb_eq in E'. congruence.
    + destruct (String.eqb k' k0); [done | exact IH].
Qed.

Lemma dict_get_set k k' v d :
  dict_get k' (dict_set k v d) = if String.eqb k k' then Some v else dict_get k' d.
Proof.
  destruct (String.eqb k k') eqn:E.
  - apply String.eqb_eq in E. subst. apply dict_get_set_eq.
  - apply String.eqb_neq in E. by apply dict_get_set_ne.
Qed.

End DictFacts.

(* ===================================================================== *)
(** ** config_manager.py: coercion, get and set *)
(* ===================================================================== *)

Section ConfigFacts.
Import ConfigManager Spec.

Lemma split_nonempty sep s : PyStr.split sep s <> [].
Proof.
  destruct s as [|c s]; simpl; [done|].
  destruct (Ascii.eqb c sep); [done|].
  by destruct (PyStr.split sep s).
Qed.

(** [keys[:-1] + [keys[-1]]] is [keys]. *)
Lemma split_init_last key_path :
  (intermediate key_path ++ [List.last (PyStr.split "." key_path) ""])%list
  = PyStr.split "." key_path.
Proof.
  unfold intermediate. symmetry. apply app_removelast_last, split_nonempty.
Qed.

Lemma walkable_nil keys : walkable DNil keys = true.
Proof. by destruct keys. Qed.

Lemma get_walk_nil keys : keys <> [] -> get_walk (PDict DNil) keys = None.
Proof. by destruct keys. Qed.

(** Along a walkable prefix the assignment succeeds, and the walk of
    [get] over the same keys ends on the value. *)
Lemma set_walk_get keys : forall current last v,
  walkable current keys = true ->
  exists d', set_walk current keys last v = Returned d'
             /\ get_walk (PDict d') (keys ++ [last]) = Some v.
Proof.
  induction keys as [|key keys IH]; intros current last v Hw; simpl in *.
  - eexists; split; [reflexivity|]. by rewrite dict_get_set_eq.
  - destruct (dict_get key current) as [[| | | | | |sub]|] eqn:E;
      try discriminate; rewrite ?dict_get_set_eq, ?E.
    + destruct (IH sub last v Hw) as (sub' & -> & Hget). simpl.
      eexists; split; [reflexivity|]. by rewrite dict_get_set_eq.
    + destruct (IH DNil last v (walkable_nil keys)) as (sub' & -> & Hget). simpl.
      eexists; split; [reflexivity|]. by rewrite dict_get_set_eq.
Qed.

(** An assignment that succeeds went along a walkable prefix. *)
Lemma set_walk_walkable keys : forall current last v d',
  set_walk current keys last v = Returned d' -> walkable current keys = true.
Proof.
  induction keys as [|key keys IH]; intros current last v d' Hs; simpl in *; [done|].
  destruct (dict_get key current) as [[| | | | | |sub]|] eqn:E;
    rewrite ?dict_get_set_eq, ?E in Hs; try discriminate; [|done].
  destruct (set_walk sub keys last v) eqn:Es; [|discriminate]. eauto.
Qed.

End ConfigFacts.

(** C6 — Environment-variable type coercion: for every string [s],
    [_convert_env_value s] is the boolean true or false when [s.lower()] is
    "true" or "false"; otherwise [int(s)] when [s] parses as an integer;
    otherwise [float(s)] when it parses as a float; otherwise [s] itself.
    The builtins [int] and [float] are arbitrary. *)
Theorem convert_env_value_cases (py_int : string -> option Z)
    (py_float : string -> option float) (s : string) :
  ConfigManager._convert_env_value py_int py_float s
  = Spec.convert_env_value_spec py_int py_float s.
Proof.
  unfold ConfigManager._convert_env_value, Spec.convert_env_value_spec, PyStr.mem.
  simpl existsb.
  destruct (String.eqb (PyStr.lower s) "true") eqn:Et; simpl; [done|].
  destruct (String.eqb (PyStr.lower s) "false") eqn:Ef; simpl; [done|].
  destruct (py_int s); [done|]. by destruct (py_float s).
Qed.

(** C5 — Config dot-notation get/set round-trips: for every key path whose
    intermediate segments are absent or map to nested dictionaries, and for
    every value [v], [set(path, v)] returns and [get(path)] after it
    returns [v], whatever the default passed to [get]. *)
Theorem get_after_set (self : ConfigManager.ConfigManager) (key_path : string)
    (v default : pyobj) :
  Spec.walkable (ConfigManager.config_data self) (Spec.intermediate key_path) = true ->
  exists self',
    ConfigManager.set self key_path v = Returned self'
    /\ ConfigManager.get self' key_path default = v.
Proof.
  intros Hw.
  destruct (set_walk_get _ _ (List.last (PyStr.split "." key_path) "") v Hw)
    as (d' & Hset & Hget).
  exists {| ConfigManager.config_data := d';
            ConfigManager.config_path := ConfigManager.config_path self |}.
  unfold ConfigManager.set, ConfigManager._set_nested_value, ConfigManager.get.
  fold (Spec.intermediate key_path). rewrite Hset. simpl. split; [done|].
  rewrite split_init_last in Hget. by rewrite Hget.
Qed.

(* ===================================================================== *)
(** ** config_manager.py: the order of precedence *)
(* ===================================================================== *)

Section PrecedenceFacts.
Import ConfigManager Spec.

Lemma diverge_cons_nonempty p q : diverge p q = true -> p <> [] /\ q <> [].
Proof. destruct p, q; simpl; try discriminate; done. Qed.

(** An assignment leaves alone every key path that parts ways with its own. *)
Lemma set_walk_frame keys : forall current last v d' p,
  set_walk current keys last v = Returned d' ->
  diverge p (keys ++ [last]) = true ->
  get_walk (PDict d') p = get_walk (PDict current) p.
Proof.
  induction keys as [|key keys IH]; intros current last v d' [|a p] Hs Hd;
    simpl in *; try discriminate.
  - injection Hs as <-. rewrite dict_get_set.
    destruct (String.eqb a last) eqn:E; [by destruct p|].
    rewrite String.eqb_sym in E. by rewrite E.
  - destruct (dict_get key current) as [[| | | | | |sub]|] eqn:E;
      rewrite ?dict_get_set_eq, ?E in Hs; try discriminate.
    + destruct (set_walk sub keys last v) as [sub'|] eqn:Es; [|discriminate].
      simpl in Hs. injection Hs as <-. rewrite dict_get_set.
      destruct (String.eqb a key) eqn:Ea.
      * apply String.eqb_eq in Ea. subst a. rewrite String.eqb_refl, E.
        by apply (IH sub last v).
      * rewrite String.eqb_sym in Ea. by rewrite Ea.
    + destruct (set_walk DNil keys last v) as [sub'|] eqn:Es; [|discriminate].
      simpl in Hs. injection Hs as <-. rewrite dict_get_set.
      destruct (String.eqb a key) eqn:Ea.
      * apply String.eqb_eq in Ea. subst a. rewrite String.eqb_refl, E.
        rewrite (IH DNil last v sub' p Es Hd).
        apply get_walk_nil. by destruct (diverge_cons_nonempty _ _ Hd).
      * rewrite String.eqb_sym in Ea. by rewrite Ea, dict_get_set, Ea.
Qed.

(** An assignment keeps walkable every prefix no longer than its own. *)
Lemma set_walk_keeps_walkable keys : forall current last v d' q,
  set_walk current keys last v = Returned d' ->
  (length q <= length keys)%nat ->
  walkable current q = true -> walkable d' q = true.
Proof.
  induction keys as [|key keys IH]; intros current last v d' [|a q] Hs Hl Hw;
    simpl in *; try done; try lia.
  destruct (dict_get key current) as [[| | | | | |sub]|] eqn:E;
    rewrite ?dict_get_set_eq, ?E in Hs; try discriminate.
  - destruct (set_walk sub keys last v) as [sub'|] eqn:Es; [|discriminate].
    simpl in Hs. injection Hs as <-. rewrite dict_get_set.
    destruct (String.eqb key a) eqn:Ea; [|done].
    apply String.eqb_eq in Ea. subst a. rewrite E in Hw.
    apply (IH sub last v); [done | lia | done].
  - destruct (set_walk DNil keys last v) as [sub'|] eqn:Es; [|discriminate].
    simpl in Hs. injection Hs as <-. rewrite dict_get_set.
    destruct (String.eqb key a) eqn:Ea.
    + apply (IH DNil last v); [done | lia | apply walkable_nil].
    + rewrite dict_get_set, Ea. done.
Qed.

(** An assignment that raises met a segment that holds no dictionary, and
    raises TypeError. *)
Lemma set_walk_raises keys : forall current last v e,
  set_walk current keys last v = Raised e ->
  walkable current keys = false /\ exn_kind e = TypeError.
Proof.
  induction keys as [|key keys IH]; intros current last v e Hs; simpl in *;
    [discriminate|].
  destruct (dict_get key current) as [[| | | | | |sub]|] eqn:E;
    rewrite ?dict_get_set_eq, ?E in Hs;
    try (injection Hs as <-; split; reflexivity).
  - destruct (set_walk sub keys last v) as [sub'|e'] eqn:Es; [discriminate|].
    simpl in Hs. injection Hs as <-. eauto.
  - destruct (set_walk_get keys DNil last v (walkable_nil keys)) as (d' & Hd & _).
    rewrite Hd in Hs. discriminate.
Qed.

(** An assignment below one section leaves a section that holds no
    dictionary as it is. *)
Lemma set_walk_keeps_unwalkable keys : forall current last v d' q,
  set_walk current keys last v = Returned d' ->
  length keys = 1%nat -> length q = 1%nat ->
  walkable current q = false -> walkable d' q = false.
Proof.
  intros current last v d' q Hs Hk Hq Hw.
  destruct keys as [|key [|]]; try discriminate.
  destruct q as [|a [|]]; try discriminate. simpl in *.
  destruct (dict_get key current) as [[| | | | | |sub]|] eqn:E;
    rewrite ?dict_get_set_eq, ?E in Hs; try discriminate;
    simpl in Hs; injection Hs as <-; rewrite dict_get_set;
    (destruct (String.eqb key a) eqn:Ea;
     [apply String.eqb_eq in Ea; subst a; rewrite E in Hw; discriminate|]);
    rewrite ?dict_get_set, ?Ea; exact Hw.
Qed.

Lemma set_nested_value_frame data key_path v data' p :
  _set_nested_value data key_path v = Returned data' ->
  diverge p (PyStr.split "." key_path) = true ->
  get_walk (PDict data') p = get_walk (PDict data) p.
Proof.
  unfold _set_nested_value. fold (intermediate key_path).
  intros Hs Hd. rewrite <- split_init_last in Hd.
  by apply (set_walk_frame _ _ _ _ _ _ Hs).
Qed.

Lemma set_nested_value_get data key_path v data' :
  _set_nested_value data key_path v = Returned data' ->
  get_walk (PDict data') (PyStr.split "." key_path) = Some v.
Proof.
  unfold _set_nested_value. fold (intermediate key_path). intros Hs.
  pose proof (set_walk_walkable _ _ _ _ _ Hs) as Hw.
  destruct (set_walk_get _ _ (List.last (PyStr.split "." key_path) "") v Hw)
    as (d & Hd & Hget).
  rewrite Hs in Hd. injection Hd as <-. by rewrite split_init_last in Hget.
Qed.

Section Loop.
Variable py_int : string -> option Z.
Variable py_float : string -> option float.
Variable getenv : gmap string string.

Abbreviation loop := (load_environment_loop py_int py_float getenv).
Abbreviation convert := (_convert_env_value py_int py_float).

(** The loop leaves alone every key path that parts ways with the keys
    of the variables that are set. *)
Lemma loop_frame ms : forall data data' p,
  loop ms data = Returned data' ->
  (forall e k V, In (e, k) ms -> getenv !! e = Some V ->
                 diverge p (PyStr.split "." k) = true) ->
  get_walk (PDict data') p = get_walk (PDict data) p.
Proof.
  induction ms as [|[e0 k0] ms IH]; intros data data' p Hl Hd; simpl in Hl.
  - by injection Hl as <-.
  - destruct (getenv !! e0) as [V0|] eqn:E0.
    + destruct (_set_nested_value data k0 (convert V0)) as [data1|] eqn:Es;
        [|discriminate]. simpl in Hl.
      rewrite (IH data1 data' p Hl); [|intros; eapply Hd; [by right | done]].
      eapply set_nested_value_frame; [done|]. eapply Hd; [by left | done].
    + apply (IH data data' p Hl). intros; eapply Hd; [by right | done].
Qed.

(** After the loop, the key of every variable that is set holds its
    coerced value. *)
Lemma loop_get ms : forall data data' e k V,
  pairwise_diverge (map (fun m => PyStr.split "." (snd m)) ms) = true ->
  loop ms data = Returned data' ->
  In (e, k) ms -> getenv !! e = Some V ->
  get_walk (PDict data') (PyStr.split "." k) = Some (convert V).
Proof.
  induction ms as [|[e0 k0] ms IH]; intros data data' e k V Hp Hl Hin HV;
    simpl in *; [done|].
  apply andb_prop in Hp as [Hhead Hp].
  destruct Hin as [[= -> ->]|Hin].
  - rewrite HV in Hl.
    destruct (_set_nested_value data k (convert V)) as [data1|] eqn:Es;
      [|discriminate]. simpl in Hl.
    rewrite (loop_frame ms data1 data' _ Hl).
    + by apply (set_nested_value_get data).
    + intros e' k' V' Hin' _. rewrite forallb_forall in Hhead.
      apply Hhead. apply in_map_iff. by exists (e', k').
  - destruct (getenv !! e0) as [V0|] eqn:E0.
    + destruct (_set_nested_value data k0 (convert V0)) as [data1|] eqn:Es;
        [|discriminate]. simpl in Hl. by apply (IH data1 data' e k V).
    + by apply (IH data data' e k V).
Qed.

(** The loop returns when the intermediate segment of every variable
    that is set is walkable. *)
Lemma loop_returns ms : forall data,
  forallb (fun m => (length (intermediate (snd m)) =? 1)%nat) ms = true ->
  (forall e k V, In (e, k) ms -> getenv !! e = Some V ->
                 walkable data (intermediate k) = true) ->
  exists data', loop ms data = Returned data'.
Proof.
  induction ms as [|[e0 k0] ms IH]; intros data Hu Hw; simpl in *; [by eexists|].
  apply andb_prop in Hu as [Hu0 Hu]. apply Nat.eqb_eq in Hu0.
  destruct (getenv !! e0) as [V0|] eqn:E0.
  - assert (walkable data (intermediate k0) = true) as Hw0
      by (eapply Hw; [by left | done]).
    destruct (set_walk_get _ _ (List.last (PyStr.split "." k0) "") (convert V0) Hw0)
      as (data1 & Hs & _).
    unfold _set_nested_value. fold (intermediate k0). rewrite Hs. simpl.
    apply IH; [done|]. intros e k V Hin HV.
    eapply set_walk_keeps_walkable; [exact Hs | | eapply Hw; [by right | done]].
    rewrite forallb_forall in Hu. specialize (Hu (e, k) Hin). simpl in Hu.
    apply Nat.eqb_eq in Hu. lia.
  - apply IH; [done|]. intros; eapply Hw; [by right | done].
Qed.

(** The loop raises TypeError when the section of a variable that is set
    holds something else than a dictionary. *)
Lemma loop_raises ms : forall data e k V,
  forallb (fun m => (length (intermediate (snd m)) =? 1)%nat) ms = true ->
  In (e, k) ms -> getenv !! e = Some V ->
  walkable data (intermediate k) = false ->
  exists err, loop ms data = Raised err /\ exn_kind err = TypeError.
Proof.
  induction ms as [|[e0 k0] ms IH]; intros data e k V Hu Hin HV Hw;
    simpl in *; [done|].
  apply andb_prop in Hu as [Hu0 Hu]. apply Nat.eqb_eq in Hu0.
  destruct (getenv !! e0) as [V0|] eqn:E0.
  - unfold _set_nested_value. fold (intermediate k0).
    destruct (set_walk data (intermediate k0) _ (convert V0)) as [data1|err] eqn:Es.
    + simpl. destruct Hin as [[= -> ->]|Hin].
      * apply set_walk_walkable in Es. congruence.
      * apply (IH data1 e k V Hu Hin HV).
        eapply set_walk_keeps_unwalkable; [exact Es | exact Hu0 | | exact Hw].
        rewrite forallb_forall in Hu. specialize (Hu (e, k) Hin). simpl in Hu.
        by apply Nat.eqb_eq in Hu.
    + simpl. exists err. split; [reflexivity|].
      exact (proj2 (set_walk_raises _ _ _ _ _ Es)).
  - destruct Hin as [[= -> ->]|Hin]; [congruence|]. by apply (IH data e k V).
Qed.
End Loop.

Lemma env_mappings_diverge :
  pairwise_diverge (map (fun m => PyStr.split "." (snd m)) env_mappings) = true.
Proof. vm_compute. reflexivity. Qed.

Lemma env_mappings_two_segments :
  forallb (fun m => (length (intermediate (snd m)) =? 1)%nat) env_mappings = true.
Proof. vm_compute. reflexivity. Qed.

(** A key the update does not hold keeps its value through the merge. *)
Lemma deep_merge_other a update : forall base,
  dict_get a update = None ->
  dict_get a (_deep_merge base update) = dict_get a base.
Proof.
  induction update as [|k val rest IH]; intros base Hn; simpl in *; [done|].
  destruct (String.eqb a k) eqn:Ea; [discriminate|].
  rewrite (IH _ Hn). rewrite String.eqb_sym in Ea.
  destruct (dict_get k base) as [[]|], val; by rewrite dict_get_set, Ea.
Qed.

(** A value of the update that is not a dictionary is found at the same
    key path after the merge. *)
Lemma deep_merge_get update : forall base keys v,
  unique_keys update = true -> keys <> [] ->
  get_walk (PDict update) keys = Some v -> is_dict v = false ->
  get_walk (PDict (_deep_merge base update)) keys = Some v.
Proof.
  induction update as [| | | | | |u IHu| |k val IHval rest IHrest]
    using dict_mut
    with (P := fun o => match o with
                        | PDict u => forall base keys v,
                            unique_keys u = true -> keys <> [] ->
                            get_walk (PDict u) keys = Some v -> is_dict v = false ->
                            get_walk (PDict (_deep_merge base u)) keys = Some v
                        | _ => True
                        end); try done.
  - intros base [|a keys] v Hu Hne Hg Hv; [done|]. simpl in Hg. discriminate.
  - intros base [|a keys] v Hu Hne Hg Hv; [done|]. simpl in *.
    destruct (dict_get k rest) eqn:Ek; [discriminate|].
    apply andb_prop in Hu as [Huv Hur].
    destruct (String.eqb a k) eqn:Ea.
    + apply String.eqb_eq in Ea. subst a.
      rewrite (deep_merge_other _ _ _ Ek).
      destruct val as [| | | | | |u];
        try (destruct (dict_get k base) as [[]|]; rewrite dict_get_set_eq; exact Hg).
      assert (keys <> []) as Hk by (intros ->; simpl in Hg; by injection Hg as <-).
      destruct (dict_get k base) as [[| | | | | |b]|]; rewrite dict_get_set_eq;
        try exact Hg.
      by apply IHval.
    + by apply (IHrest _ (a :: keys) v).
Qed.

Lemma merged_file_config x config_path :
  merged x config_path
  = match file_config x config_path with
    | Some f => _deep_merge defaults f
    | None => defaults
    end.
Proof.
  unfold merged, file_config, _load_config_file, _load_defaults. simpl.
  destruct (resolve_path x config_path) as [path|]; [|done].
  destruct (negb (String.eqb path "") && file_exists x path); [|done].
  by destruct (parse_config x path) as [[]|].
Qed.

End PrecedenceFacts.

(** Membership in a list written out. *)
Ltac in_list := simpl; repeat (first [left; reflexivity | right]).

(** C5, on the defaults: a key of a new section. *)
Lemma get_after_set_witness :
  exists self',
    ConfigManager.set Samples.default_manager "new_section.new_key" (PStr "new_value")
      = Returned self'
    /\ ConfigManager.get self' "new_section.new_key" PNone = PStr "new_value".
Proof.
  apply (get_after_set Samples.default_manager "new_section.new_key"
           (PStr "new_value") PNone).
  vm_compute. reflexivity.
Defined.

(** C4 as stated fails: with [MAX_FILE_SIZE] set and a config file that
    holds a number under [video], the constructor raises and there is no
    manager to ask. *)
Lemma environment_override_counterexample :
  Spec.set_variable Samples.scalar_section_env
    "MAX_FILE_SIZE" "video.max_file_size" "1000"
  /\ ~ (exists self,
          ConfigManager.__init__ PyParse.int_ PyParse.float_
            Samples.scalar_section_env (Some "c.json") = Returned self
          /\ ConfigManager.get self "video.max_file_size" PNone
             = ConfigManager._convert_env_value PyParse.int_ PyParse.float_ "1000").
Proof.
  split.
  - split; [in_list | vm_compute; reflexivity].
  - intros (self & Hinit & _). vm_compute in Hinit. discriminate.
Qed.

(** C4, amended — Precedence of defaults, config file and environment.
    Take the configuration once the config file is merged into the
    defaults. If the section of every mapped key whose variable is set is
    a dictionary there (or absent), the constructor returns; [get] on the
    mapped key of every set variable returns the coerced value, whatever
    defaults and file hold; and a value of the config file that is not a
    dictionary is what [get] returns at its key path, unless a set
    variable maps to that path, to a prefix of it or to an extension of
    it. If the section of some mapped key whose variable is set holds
    something else than a dictionary, the constructor raises TypeError. *)
Theorem environment_then_file_then_defaults (py_int : string -> option Z)
    (py_float : string -> option float) (x : ConfigManager.Externals)
    (config_path : option string) :
  ((forall e k V, Spec.set_variable x e k V ->
      Spec.walkable (Spec.merged x config_path) (Spec.intermediate k) = true) ->
   exists self,
     ConfigManager.__init__ py_int py_float x config_path = Returned self
     /\ (forall e k V default, Spec.set_variable x e k V ->
           ConfigManager.get self k default
           = ConfigManager._convert_env_value py_int py_float V)
     /\ (forall f key_path v default,
           Spec.file_config x config_path = Some f ->
           Spec.unique_keys f = true ->
           ConfigManager.get_walk (PDict f) (PyStr.split "." key_path) = Some v ->
           is_dict v = false ->
           (forall e k V, Spec.set_variable x e k V ->
              Spec.diverge (PyStr.split "." key_path) (PyStr.split "." k) = true) ->
           ConfigManager.get self key_path default = v))
  /\ (forall e k V, Spec.set_variable x e k V ->
        Spec.walkable (Spec.merged x config_path) (Spec.intermediate k) = false ->
        exists err,
          ConfigManager.__init__ py_int py_float x config_path = Raised err
          /\ exn_kind err = TypeError).
Proof.
  split.
  - intros Hw.
    destruct (loop_returns py_int py_float (ConfigManager.load_dotenv x)
                ConfigManager.env_mappings (Spec.merged x config_path)
                env_mappings_two_segments) as [data' Hloop].
    { intros e k V Hin HV. by apply (Hw e k V). }
    eexists. split; [|split].
    + unfold ConfigManager.__init__, ConfigManager._load_environment.
      fold (Spec.merged x config_path). rewrite Hloop. reflexivity.
    + intros e k V default [Hin HV]. unfold ConfigManager.get. simpl.
      by rewrite (loop_get _ _ _ _ _ _ _ _ _ env_mappings_diverge Hloop Hin HV).
    + intros f key_path v default Hf Hu Hg Hv Hd. unfold ConfigManager.get. simpl.
      rewrite (loop_frame _ _ _ _ _ _ _ Hloop).
      * rewrite merged_file_config, Hf.
        rewrite (deep_merge_get f ConfigManager.defaults _ v); try done.
        apply split_nonempty.
      * intros e k V Hin HV. by apply (Hd e k V).
  - intros e k V [Hin HV] Hw.
    destruct (loop_raises py_int py_float (ConfigManager.load_dotenv x)
                ConfigManager.env_mappings (Spec.merged x config_path) e k V
                env_mappings_two_segments Hin HV Hw) as (err & Hloop & Hkind).
    exists err. split; [|exact Hkind].
    unfold ConfigManager.__init__, ConfigManager._load_environment.
    fold (Spec.merged x config_path). rewrite Hloop. reflexivity.
Qed.

(** C4, on the environment of the test suite: the variable wins over the
    default, and the file over the default where no variable is set; and
    on a config file that holds a number under [video], with
    [MAX_FILE_SIZE] set: the constructor raises TypeError. *)
Lemma environment_then_file_then_defaults_witness :
  (exists self,
     ConfigManager.__init__ PyParse.int_ PyParse.float_ Samples.test_env None
       = Returned self
     /\ ConfigManager.get self "video.max_file_size" PNone = PInt 1000000000
     /\ ConfigManager.get self "youtube.default_privacy" PNone = PStr "unlisted")
  /\ (exists err,
        ConfigManager.__init__ PyParse.int_ PyParse.float_
          Samples.scalar_section_env (Some "c.json") = Raised err
        /\ exn_kind err = TypeError).
Proof.
  split.
  - destruct (proj1 (environment_then_file_then_defaults PyParse.int_ PyParse.float_
                       Samples.test_env None)) as (self & Hinit & Henv & Hfile).
    + intros e k V [Hin HV]. simpl in Hin.
      repeat (destruct Hin as [[= <- <-]|Hin]; [vm_compute; reflexivity|]).
      destruct Hin.
    + exists self. split; [exact Hinit|]. split.
      * rewrite (Henv "MAX_FILE_SIZE" "video.max_file_size" "1000000000" PNone).
        -- vm_compute. reflexivity.
        -- split; [in_list | vm_compute; reflexivity].
      * eapply (Hfile _ "youtube.default_privacy" (PStr "unlisted") PNone).
        -- vm_compute. reflexivity.
        -- vm_compute. reflexivity.
        -- vm_compute. reflexivity.
        -- reflexivity.
        -- intros e k V [Hin HV]. simpl in Hin.
           repeat (destruct Hin as [[= <- <-]|Hin];
                   [first [vm_compute; reflexivity | vm_compute in HV; discriminate]|]).
           destruct Hin.
  - apply (proj2 (environment_then_file_then_defaults PyParse.int_ PyParse.float_
                    Samples.scalar_section_env (Some "c.json"))
             "MAX_FILE_SIZE" "video.max_file_size" "1000").
    + split; [in_list | vm_compute; reflexivity].
    + vm_compute. reflexivity.
Defined.

(* ===================================================================== *)
(** ** video_validator.py *)
(* ===================================================================== *)

Section ValidatorFacts.
Import VideoValidator Spec.

Lemma path_exists_lookup (files : gmap string Z) p :
  path_exists files p = match files !! p with Some _ => true | None => false end.
Proof.
  unfold path_exists. destruct (files !! p).
  - apply bool_decide_eq_true. eauto.
  - apply bool_decide_eq_false. by intros [? ?].
Qed.

Lemma max_duration_float : PyFloat.of_Z INSTAGRAM_REELS_MAX_DURATION = 90%float.
Proof. vm_compute. reflexivity. Qed.

(** Case analysis on every test of an [if]. *)
Ltac split_ifs :=
  repeat match goal with
         | |- context [if ?b then _ else _] =>
             match type of b with bool => destruct b eqn:? end
         end.

(** The list of errors is empty exactly when no metadata check fires. *)
Lemma validate_metadata_verdict m :
  match _validate_metadata m with [] => false | _ :: _ => true end
  = duration_out_of_range m || resolution_out_of_range m
    || (resolution_known m && aspect_ratio_off m).
Proof.
  unfold _validate_metadata, duration_out_of_range, resolution_out_of_range,
    resolution_known, aspect_ratio_off, aspect_ratio_known, append.
  rewrite max_duration_float.
  change MIN_DURATION with 1%float.
  change PREFERRED_ASPECT_RATIO with (9 / 16)%float.
  change (fst MIN_RESOLUTION) with 720. change (snd MIN_RESOLUTION) with 1280.
  change (fst MAX_RESOLUTION) with 1080. change (snd MAX_RESOLUTION) with 1920.
  destruct m as [d w h ar sz fmt br f].
  cbn [md_duration md_width md_height md_aspect_ratio].
  split_ifs; reflexivity.
Qed.

Lemma prefix_append p s : String.prefix p (p ++ s) = true.
Proof.
  induction p as [|c p IH]; simpl; [by destruct s|].
  destruct (ascii_dec c c); [exact IH | done].
Qed.

(** The errors are the messages of the checks that fail, in order. *)
Lemma validate_metadata_messages m : _validate_metadata m = metadata_messages m.
Proof.
  unfold _validate_metadata, metadata_messages, when, resolution_known,
    aspect_ratio_known, append.
  rewrite max_duration_float.
  change MIN_DURATION with 1%float.
  change PREFERRED_ASPECT_RATIO with (9 / 16)%float.
  change (fst MIN_RESOLUTION) with 720. change (snd MIN_RESOLUTION) with 1280.
  change (fst MAX_RESOLUTION) with 1080. change (snd MAX_RESOLUTION) with 1920.
  change (pretty INSTAGRAM_REELS_MAX_DURATION) with "90".
  change (pretty YOUTUBE_SHORTS_MAX_DURATION) with "60".
  change (pretty 720) with "720". change (pretty 1280) with "1280".
  change (pretty 1080) with "1080". change (pretty 1920) with "1920".
  change (PyFloat.format_fixed 2 (9 / 16)) with "0.56".
  destruct m as [d w h ar sz fmt br f].
  cbn [md_duration md_width md_height md_aspect_ratio].
  split_ifs; reflexivity.
Qed.

End ValidatorFacts.

Section ValidateVideoFacts.
Import VideoValidator Spec.
Variable x : Externals.
Variable files : gmap string Z.
Variable video_path : string.

(** The steps of [validate_video], one test after the other. *)
Ltac reduce := cbn [negb orb mbind outcome_bind mret outcome_ret].

Ltac steps :=
  unfold validate_video, validate_video_try, rejected, file_rejected, probed, getsize;
  change SUPPORTED_FORMATS with [".mp4"; ".mov"; ".avi"];
  change MAX_FILE_SIZE with (500 * 1024 * 1024);
  rewrite path_exists_lookup;
  destruct (files !! video_path) as [size|]; reduce;
    [destruct (PyStr.mem (PyStr.lower (PyStr.path_suffix video_path)) _); reduce;
       [destruct (500 * 1024 * 1024 <? size); reduce;
          [|destruct (size =? 0); reduce;
              [|destruct (if ffprobe_available x then _ else _) as [m|e]; reduce]]|]|].

Lemma validate_video_verdict :
  is_valid (validate_video x files video_path) = negb (rejected x files video_path).
Proof.
  steps; try reflexivity.
  rewrite <- validate_metadata_verdict. by destruct (_validate_metadata m).
Qed.

(** The message is that of the cause. *)
Lemma validate_video_cause :
  error_message (validate_video x files video_path) = cause_message x files video_path.
Proof.
  unfold cause_message. steps; try reflexivity.
  rewrite <- validate_metadata_messages. by destruct (_validate_metadata m).
Qed.

Lemma validate_video_message :
  match error_message (validate_video x files video_path) with
  | Some msg => is_valid (validate_video x files video_path) = false
  | None => is_valid (validate_video x files video_path) = true
  end.
Proof.
  steps; try reflexivity. by destruct (_validate_metadata m).
Qed.

End ValidateVideoFacts.

(** C3 as stated fails: ffprobe is at hand and cannot read a file of 1000
    bytes named [clip.mp4]; the video is invalid although none of the
    listed conditions holds. *)
Lemma listed_conditions_counterexample :
  VideoValidator.is_valid
    (VideoValidator.validate_video Samples.ffprobe_fails Samples.one_clip
       "/data/clip.mp4") = false
  /\ Spec.listed_conditions Samples.ffprobe_fails Samples.one_clip "/data/clip.mp4"
     = false.
Proof. split; vm_compute; reflexivity. Qed.

(** C3, amended — [validate_video] marks a video invalid exactly when the
    file does not exist; or its lower-cased extension is not .mp4, .mov or
    .avi; or its size exceeds 500*1024*1024 bytes or is 0; or fetching the
    metadata raises; or the probed duration is below 1.0 or above 90
    seconds; or a known resolution (width and height positive) has width
    below 720 or height below 1280, or width above 1080 or height above
    1920; or, for a known resolution, a known aspect ratio is greater than
    1.0 or differs from 9/16 by more than 0.1. The message of an invalid
    result is the one of its cause, the first in this order: "Video file
    not found: <path>"; "Unsupported format: <ext>. Supported: [...]";
    "File too large: <MB>MB. Max: 500.0MB"; "Video file is empty";
    "Validation error: <exception text>" when fetching the metadata
    raises; else the messages of the metadata checks that fail, joined by
    "; ". A valid result carries no message. The thresholds are the class
    constants, whatever configuration the uploader that owns the validator
    holds. *)
Theorem validation_verdict (self : VideoUploader.VideoUploader)
    (files : gmap string Z) (video_path : string) :
  let r := VideoValidator.validate_video (VideoUploader.validator self)
             files video_path in
  VideoValidator.is_valid r
    = negb (Spec.rejected (VideoUploader.validator self) files video_path)
  /\ VideoValidator.error_message r
     = Spec.cause_message (VideoUploader.validator self) files video_path
  /\ (VideoValidator.is_valid r = true <-> VideoValidator.error_message r = None)
  /\ (VideoValidator.MAX_FILE_SIZE, VideoValidator.SUPPORTED_FORMATS,
      VideoValidator.MIN_DURATION, VideoValidator.INSTAGRAM_REELS_MAX_DURATION,
      VideoValidator.MIN_RESOLUTION, VideoValidator.MAX_RESOLUTION,
      VideoValidator.PREFERRED_ASPECT_RATIO)
     = (524288000, [".mp4"; ".mov"; ".avi"], 1%float, 90,
        (720, 1280), (1080, 1920), 0.5625%float).
Proof.
  cbv zeta. split; [apply validate_video_verdict|].
  split; [apply validate_video_cause|]. split; [|vm_compute; reflexivity].
  pose proof (validate_video_message (VideoUploader.validator self) files video_path)
    as Hm.
  destruct (VideoValidator.error_message _);
    destruct (VideoValidator.is_valid _); split; congruence.
Qed.

(* ===================================================================== *)
(** ** upload_video.py: one run of [upload_video] *)
(* ===================================================================== *)

Section UploaderFacts.
Import VideoUploader Spec.

Variable self : VideoUploader.
Variable x : VideoUploader.Externals.
Variables title description privacy : string.
Variable tags : option (list string).
Variables instagram_caption schedule_time : option string.

Lemma process_results_returned platforms rs : forall i,
  process_results platforms i (map Returned rs) = Returned rs.
Proof.
  induction rs as [|r rs IH]; intros i; simpl; [done|]. by rewrite IH.
Qed.

Lemma only_lines_refl o : only_lines o o.
Proof. exists []. by rewrite app_nil_r. Qed.

Lemma only_lines_line o o' m : only_lines o o' -> only_lines o (o' ++ [Line m]).
Proof. intros [ls ->]. exists (ls ++ [m])%list. by rewrite map_app, app_assoc. Qed.

Lemma only_lines_lines o o' ms :
  only_lines o o' -> only_lines o (o' ++ map Line ms).
Proof. intros [ls ->]. exists (ls ++ ms)%list. by rewrite map_app, app_assoc. Qed.

Lemma only_lines_trans o1 o2 o3 :
  only_lines o1 o2 -> only_lines o2 o3 -> only_lines o1 o3.
Proof.
  intros [l1 ->] [l2 ->]. exists (l1 ++ l2)%list. by rewrite map_app, app_assoc.
Qed.

(** The logger writes the messages at INFO or above, and nothing else
    changes. *)
Lemma log_all_run ms : forall w,
  log_all ms w
  = (Returned tt,
     {| files := files w; trace := trace w;
        stdout := (stdout w
                   ++ map Line (List.filter (Loguru.passes Loguru.INFO) ms))%list |}).
Proof.
  induction ms as [|m ms IH]; intros [f t o]; cbn [log_all List.filter map].
  - unfold mret, M_ret. cbn [files trace stdout]. by rewrite app_nil_r.
  - unfold mbind, M_bind, log. rewrite IH. cbn [files trace stdout].
    destruct (Loguru.passes Loguru.INFO m); [|done].
    unfold append. by rewrite <- app_assoc.
Qed.

Lemma log_run m w :
  log m w
  = (Returned tt,
     {| files := files w; trace := trace w;
        stdout := (stdout w
                   ++ map Line (List.filter (Loguru.passes Loguru.INFO) [m]))%list |}).
Proof.
  unfold log. cbn [List.filter]. destruct (Loguru.passes Loguru.INFO m); [done|].
  cbn [map]. by rewrite app_nil_r.
Qed.

Ltac written :=
  cbn [files trace stdout];
  repeat first [apply only_lines_lines | apply only_lines_line];
  apply only_lines_refl.

(** The [try] from the validation on: it returns, it leaves the files
    alone, it gathers only for a valid video, and it writes lines of the
    logger only. *)
Lemma validate_and_upload_run video_path platforms w :
  let v := VideoValidator.validate_video (validator self) (files w) video_path in
  exists w',
    validate_and_upload self x video_path title description tags privacy
      instagram_caption schedule_time platforms w
    = (Returned
         (if VideoValidator.is_valid v
          then upload_results self x video_path title description tags privacy
                 instagram_caption schedule_time platforms
          else rejection_results (VideoValidator.error_message v) platforms),
       w')
    /\ files w' = files w
    /\ trace w' = (trace w
                   ++ upload_events (VideoValidator.is_valid v) video_path platforms)%list
    /\ only_lines (stdout w) (stdout w').
Proof.
  cbv zeta. unfold validate_and_upload, validate, upload_results, upload_events, started,
    rejection_results, youtube_result, instagram_result, caption_for.
  unfold mbind, M_bind, emit, append. cbn [files trace stdout].
  rewrite log_all_run. cbn [files trace stdout mret M_ret].
  destruct (VideoValidator.is_valid _); cbn [negb].
  - unfold gather, lift, _upload_to_youtube, _upload_to_instagram, log_summary,
      mbind, M_bind, emit, append.
    destruct (PyStr.mem "youtube" platforms), (PyStr.mem "instagram" platforms);
      cbn [app run_all files trace stdout List.length map];
      rewrite ?log_run, ?log_all_run; cbn [files trace stdout];
      repeat match goal with
             | |- context [youtube_upload x ?c ?call] => destruct (youtube_upload x c call)
             | |- context [instagram_upload x ?c ?call] =>
                 destruct (instagram_upload x c call)
             end;
      rewrite ?log_run, ?log_all_run;
      cbn [mret M_ret process_results mbind outcome_bind outcome_ret files trace stdout];
      rewrite ?log_run, ?log_all_run;
      (eexists; split; [reflexivity|]; cbn [files trace stdout];
       split; [reflexivity|]; split; [rewrite <- ?app_assoc; reflexivity|]; written).
  - rewrite log_run. eexists; split; [reflexivity|]. cbn [files trace stdout].
    split; [reflexivity|]. split; [reflexivity|]. written.
Qed.

(** The source is handled alike whatever was written before. *)
Lemma handle_source_stdout video_source w o :
  handle_source x video_source {| files := files w; trace := trace w; stdout := o |}
  = (fst (handle_source x video_source w),
     {| files := files (snd (handle_source x video_source w));
        trace := trace (snd (handle_source x video_source w));
        stdout := o |}).
Proof.
  unfold handle_source. destruct video_source as [data|path]; [|reflexivity].
  destruct (tempfile x); reflexivity.
Qed.

(** When the source yields a path, the events so far tell of the
    temporary file only, and the [finally] will find that file. *)
Lemma handle_source_returned video_source w video_path temp_file_path w1 :
  handle_source x video_source w = ((Returned video_path, temp_file_path), w1) ->
  (exists path, video_source = PathLike path /\ video_path = path
                /\ temp_file_path = None /\ w1 = w)
  \/ (exists data stem,
        video_source = Bytes data /\ tempfile x = TempStored stem
        /\ video_path = stem ++ ".mp4" /\ temp_file_path = Some video_path
        /\ w1 = {| files := <[video_path := Z.of_nat (List.length data)]>
                              (<[video_path := 0]> (files w));
                   trace := (trace w ++ [TempFileCreated video_path;
                                         TempFileWritten video_path
                                           (Z.of_nat (List.length data))])%list;
                   stdout := stdout w |}).
Proof.
  unfold handle_source. destruct video_source as [data|path].
  - destruct (tempfile x) as [stem|e|stem e] eqn:Et; [|discriminate..].
    unfold mbind, M_bind, write_file, emit, append. cbn [files trace stdout].
    rewrite <- app_assoc. intros [= <- <- <-]. right. by exists data, stem.
  - intros [= <- <- <-]. left. by exists path.
Qed.


Lemma temp_name_nonempty stem : String.eqb (stem ++ ".mp4") "" = false.
Proof. by destruct stem. Qed.

(** One run of [upload_video] on a source that yields a path. *)
Lemma upload_video_run video_source platforms w video_path temp_file_path w1 :
  handle_source x video_source w = ((Returned video_path, temp_file_path), w1) ->
  let ps := default ["youtube"; "instagram"] platforms in
  let v := VideoValidator.validate_video (validator self) (files w1) video_path in
  exists w' removed,
    upload_video self x video_source title description tags privacy
      instagram_caption schedule_time platforms w
    = (Returned
         (if VideoValidator.is_valid v
          then upload_results self x video_path title description tags privacy
                 instagram_caption schedule_time ps
          else rejection_results (VideoValidator.error_message v) ps),
       w')
    /\ trace w' = (trace w1
                   ++ upload_events (VideoValidator.is_valid v) video_path ps
                   ++ removed)%list
    /\ (removed = [] /\ files w' = files w1 /\ temp_file_path = None
        \/ exists name, temp_file_path = Some name /\ removed = [Unlinked name]
                        /\ files w' = delete name (files w1))
    /\ only_lines (stdout w) (stdout w').
Proof.
  intros Hs ps v. unfold upload_video. fold ps. rewrite log_run.
  rewrite handle_source_stdout, Hs. cbn [fst snd].
  unfold try_finally, lift, mbind at 1, M_bind at 1.
  match goal with
  | |- context [validate_and_upload _ _ _ _ _ _ _ _ _ _ ?w0] =>
      destruct (validate_and_upload_run video_path ps w0) as (w2 & -> & Hf & Ht & Ho)
  end.
  cbn [files trace stdout] in Hf, Ht, Ho. fold v in Ht.
  destruct (handle_source_returned _ _ _ _ _ Hs)
    as [(path & -> & -> & -> & ->)|(data & stem & -> & Hx & -> & -> & ->)].
  - eexists _, []. split; [reflexivity|]. rewrite app_nil_r.
    split; [exact Ht|]. split; [by left|].
    eapply only_lines_trans; [|exact Ho]. written.
  - unfold cleanup. rewrite temp_name_nonempty. cbn [negb andb].
    cbn [files] in Hf. rewrite Hf, path_exists_lookup, lookup_insert_eq.
    unfold mbind, M_bind, unlink, append. cbv beta iota.
    rewrite Hf, lookup_insert_eq.
    rewrite log_run. cbn [files trace stdout List.filter map].
    eexists _, [Unlinked _]. split; [reflexivity|]. cbn [trace files stdout].
    cbn [trace] in Ht. rewrite Ht, <- !app_assoc. split; [reflexivity|]. split; [right; by eexists|].
    rewrite app_nil_r. eapply only_lines_trans; [|exact Ho]. written.
Qed.

End UploaderFacts.

Lemma prefix_refl s : String.prefix s s = true.
Proof. induction s as [|c s IH]; simpl; [done|]. by destruct (ascii_dec c c). Qed.

Lemma contains_prefix sub s : String.prefix sub s = true -> PyStr.contains sub s = true.
Proof. destruct s; cbn [PyStr.contains]; by intros ->. Qed.

Lemma contains_append p sub : PyStr.contains sub (p ++ sub) = true.
Proof.
  induction p as [|c p IH].
  - apply contains_prefix, prefix_refl.
  - change (String c p ++ sub) with (String c (p ++ sub)).
    cbn [PyStr.contains]. rewrite IH. apply orb_true_r.
Qed.

(** C1 — When the video source yields a path and [validate_video] rejects
    the video at that path, [upload_video] with a non-empty platform list
    returns one result per requested platform, in order, each with
    [success=False] and an error message that contains the validator's
    message, and it neither gathers nor starts any upload coroutine. *)
Theorem validation_failure_fails_every_platform
    (self : VideoUploader.VideoUploader) (x : VideoUploader.Externals)
    (video_source : VideoUploader.VideoSource) (title description privacy : string)
    (tags : option (list string)) (instagram_caption schedule_time : option string)
    (platforms : list string) (w w1 : VideoUploader.World)
    (video_path : string) (temp_file_path : option string) :
  platforms <> [] ->
  VideoUploader.handle_source x video_source w
    = ((Returned video_path, temp_file_path), w1) ->
  VideoValidator.is_valid
    (VideoValidator.validate_video (VideoUploader.validator self)
       (VideoUploader.files w1) video_path) = false ->
  exists msg rs w' tail,
    VideoValidator.error_message
      (VideoValidator.validate_video (VideoUploader.validator self)
         (VideoUploader.files w1) video_path) = Some msg
    /\ VideoUploader.upload_video self x video_source title description tags privacy
         instagram_caption schedule_time (Some platforms) w = (Returned rs, w')
    /\ map VideoUploader.platform rs = platforms
    /\ Forall (fun r => VideoUploader.success r = false
                        /\ exists m, VideoUploader.error_message r = Some m
                                     /\ PyStr.contains msg m = true) rs
    /\ VideoUploader.trace w' = (VideoUploader.trace w ++ tail)%list
    /\ forallb (fun ev => negb (Spec.is_upload_event ev)) tail = true.
Proof.
  intros _ Hs Hv.
  pose proof (validate_video_message (VideoUploader.validator self)
                (VideoUploader.files w1) video_path) as Hm.
  destruct (VideoValidator.error_message _) as [msg|] eqn:Em; [|congruence].
  destruct (upload_video_run self x title description privacy tags instagram_caption
              schedule_time video_source (Some platforms) w video_path
              temp_file_path w1 Hs) as (w' & removed & Hrun & Htrace & Hrm & Hout).
  rewrite Hv, Em in Hrun. rewrite Hv in Htrace. cbn [default] in Hrun, Htrace.
  exists msg, (Spec.rejection_results (Some msg) platforms), w'.
  exists (match temp_file_path with
          | Some name => [VideoUploader.TempFileCreated name;
                          VideoUploader.TempFileWritten name
                            (match VideoUploader.files w1 !! name with
                             | Some n => n | None => 0 end)]
          | None => []
          end ++ Spec.upload_events false video_path platforms ++ removed)%list.
  split; [done|]. split; [exact Hrun|]. split; [|split; [|split]].
  - unfold Spec.rejection_results. rewrite map_map. cbn. apply map_id.
  - unfold Spec.rejection_results. apply Forall_map, Forall_forall. intros p _. cbn.
    split; [done|]. eexists. split; [done|]. apply contains_append.
  - rewrite Htrace.
    destruct (handle_source_returned _ _ _ _ _ _ Hs)
      as [(path & -> & -> & -> & ->)|(data & stem & -> & Ht & -> & -> & ->)].
    + reflexivity.
    + cbn [VideoUploader.files VideoUploader.trace]. rewrite lookup_insert_eq.
      by rewrite <- !app_assoc.
  - destruct Hrm as [(-> & _ & ->)|(name & -> & -> & _)]; reflexivity.
Qed.

(** C1, on the test of the suite: bytes that ffprobe cannot read, for
    YouTube and Instagram. *)
Lemma validation_failure_fails_every_platform_witness :
  exists msg rs w' tail,
    VideoValidator.error_message
      (VideoValidator.validate_video Samples.ffprobe_fails
         (VideoUploader.files
            (snd (VideoUploader.handle_source Samples.clients
                    (VideoUploader.Bytes Samples.fake_video_data) Samples.start)))
         "/tmp/tmpab12cd.mp4") = Some msg
    /\ VideoUploader.upload_video Samples.uploader_without_probe Samples.clients
         (VideoUploader.Bytes Samples.fake_video_data) "Test Video" "Test Description"
         None "public" None None (Some ["youtube"; "instagram"]) Samples.start
       = (Returned rs, w')
    /\ map VideoUploader.platform rs = ["youtube"; "instagram"]
    /\ Forall (fun r => VideoUploader.success r = false
                        /\ exists m, VideoUploader.error_message r = Some m
                                     /\ PyStr.contains msg m = true) rs
    /\ VideoUploader.trace w' = (VideoUploader.trace Samples.start ++ tail)%list
    /\ forallb (fun ev => negb (Spec.is_upload_event ev)) tail = true.
Proof.
  eapply (validation_failure_fails_every_platform Samples.uploader_without_probe
            Samples.clients (VideoUploader.Bytes Samples.fake_video_data)
            "Test Video" "Test Description" "public" None None None
            ["youtube"; "instagram"] Samples.start).
  - discriminate.
  - reflexivity.
  - vm_compute. reflexivity.
Defined.

Lemma mem_In s l : PyStr.mem s l = true <-> In s l.
Proof.
  unfold PyStr.mem. rewrite existsb_exists. split.
  - by intros (s' & Hin & ->%String.eqb_eq).
  - intros Hin. exists s. split; [done | apply String.eqb_refl].
Qed.

(** A coroutine is made for the platforms asked for among the two known. *)
Lemma started_spec l p :
  In p (Spec.started l) <-> In p l /\ (p = "youtube" \/ p = "instagram").
Proof.
  unfold Spec.started. rewrite in_app_iff. split.
  - intros [H|H];
      [destruct (PyStr.mem "youtube" l) eqn:E | destruct (PyStr.mem "instagram" l) eqn:E];
      simpl in H; try (by destruct H);
      destruct H as [<-|[]]; apply mem_In in E; auto.
  - intros [Hin [-> | ->]]; apply mem_In in Hin; rewrite Hin; simpl; auto.
Qed.

(** C8 as stated fails: a valid clip uploaded to YouTube alone is gathered
    as one coroutine and yields one result. *)
Lemma two_coroutines_counterexample :
  VideoValidator.is_valid
    (VideoValidator.validate_video (VideoUploader.validator Samples.uploader)
       (VideoUploader.files Samples.start) "/data/clip.mp4") = true
  /\ ~ (exists rs w',
          VideoUploader.upload_video Samples.uploader Samples.clients
            (VideoUploader.PathLike "/data/clip.mp4") "Test Video" "Test Description"
            None "public" None None (Some ["youtube"]) Samples.start
          = (Returned rs, w')
          /\ In (VideoUploader.Gathered 2) (VideoUploader.trace w')
          /\ List.length rs = 2%nat).
Proof.
  split; [vm_compute; reflexivity|].
  intros (rs & w' & Hrun & _ & Hlen).
  vm_compute in Hrun. injection Hrun as <- _. discriminate.
Qed.

(** C8, amended — When the video source yields a path and the video there
    passes validation, [upload_video] performs a single gather over the
    coroutines it made: one for YouTube when "youtube" is among the
    platforms, then one for Instagram when "instagram" is, so two at most
    and exactly these two for the default platforms; each is started once,
    and the results are those of the gathered coroutines, one each, in
    order. *)
Theorem gather_fan_out
    (self : VideoUploader.VideoUploader) (x : VideoUploader.Externals)
    (video_source : VideoUploader.VideoSource) (title description privacy : string)
    (tags : option (list string)) (instagram_caption schedule_time : option string)
    (platforms : option (list string)) (w w1 : VideoUploader.World)
    (video_path : string) (temp_file_path : option string) :
  VideoUploader.handle_source x video_source w
    = ((Returned video_path, temp_file_path), w1) ->
  VideoValidator.is_valid
    (VideoValidator.validate_video (VideoUploader.validator self)
       (VideoUploader.files w1) video_path) = true ->
  let ps := default ["youtube"; "instagram"] platforms in
  exists rs w' before after,
    VideoUploader.upload_video self x video_source title description tags privacy
      instagram_caption schedule_time platforms w = (Returned rs, w')
    /\ VideoUploader.trace w'
       = (VideoUploader.trace w ++ before
          ++ VideoUploader.Gathered (List.length (Spec.started ps))
             :: map VideoUploader.UploadStarted (Spec.started ps)
          ++ after)%list
    /\ forallb (fun ev => negb (Spec.is_upload_event ev)) before = true
    /\ forallb (fun ev => negb (Spec.is_upload_event ev)) after = true
    /\ map VideoUploader.platform rs = Spec.started ps
    /\ (List.length (Spec.started ps) <= 2)%nat
    /\ match platforms with
       | None => Spec.started ps = ["youtube"; "instagram"]
       | Some l =>
           forall p, In p (Spec.started ps)
                     <-> In p l /\ (p = "youtube" \/ p = "instagram")
       end.
Proof.
  intros Hs Hv ps.
  destruct (upload_video_run self x title description privacy tags instagram_caption
              schedule_time video_source platforms w video_path
              temp_file_path w1 Hs) as (w' & removed & Hrun & Htrace & Hrm & Hout).
  fold ps in Hrun, Htrace. rewrite Hv in Hrun, Htrace.
  exists (Spec.upload_results self x video_path title description tags privacy
            instagram_caption schedule_time ps), w'.
  assert (exists source_events,
             VideoUploader.trace w1 = (VideoUploader.trace w ++ source_events)%list
             /\ forallb (fun ev => negb (Spec.is_upload_event ev)) source_events = true)
    as (source_events & Hw1 & Hse).
  { destruct (handle_source_returned _ _ _ _ _ _ Hs)
      as [(path & -> & -> & -> & ->)|(data & stem & -> & Ht & -> & -> & ->)].
    - exists []. by rewrite app_nil_r.
    - by eexists [_; _]. }
  exists (source_events ++ [VideoUploader.Validated video_path])%list, removed.
  split; [exact Hrun|]. split; [|split; [|split; [|split; [|split]]]].
  - rewrite Htrace, Hw1. unfold Spec.upload_events. by rewrite <- !app_assoc.
  - rewrite forallb_app, Hse. reflexivity.
  - destruct Hrm as [(-> & _)|(name & _ & -> & _)]; reflexivity.
  - unfold Spec.upload_results, Spec.started, Spec.youtube_result, Spec.instagram_result.
    destruct (PyStr.mem "youtube" ps), (PyStr.mem "instagram" ps); cbn [map app];
      repeat match goal with
             | |- context [match ?o with Returned _ => _ | Raised _ => _ end] =>
                 destruct o
             end; reflexivity.
  - unfold Spec.started.
    destruct (PyStr.mem "youtube" ps), (PyStr.mem "instagram" ps); simpl; lia.
  - destruct platforms as [l|]; [|reflexivity]. apply started_spec.
Qed.

(** C8, on bytes the validator accepts and the default platforms: two
    coroutines. *)
Lemma gather_fan_out_witness :
  exists rs w' before after,
    VideoUploader.upload_video Samples.uploader Samples.clients
      (VideoUploader.Bytes Samples.fake_video_data) "Test Video" "Test Description"
      None "public" None None None Samples.start = (Returned rs, w')
    /\ VideoUploader.trace w'
       = (VideoUploader.trace Samples.start ++ before
          ++ VideoUploader.Gathered 2
             :: map VideoUploader.UploadStarted ["youtube"; "instagram"]
          ++ after)%list
    /\ forallb (fun ev => negb (Spec.is_upload_event ev)) before = true
    /\ forallb (fun ev => negb (Spec.is_upload_event ev)) after = true
    /\ map VideoUploader.platform rs = ["youtube"; "instagram"].
Proof.
  destruct (gather_fan_out Samples.uploader Samples.clients
              (VideoUploader.Bytes Samples.fake_video_data)
              "Test Video" "Test Description" "public" None None None None
              Samples.start
              (snd (VideoUploader.handle_source Samples.clients
                      (VideoUploader.Bytes Samples.fake_video_data) Samples.start))
              "/tmp/tmpab12cd.mp4" (Some "/tmp/tmpab12cd.mp4"))
    as (rs & w' & before & after & Hrun & Htrace & Hb & Ha & Hp & _).
  - reflexivity.
  - vm_compute. reflexivity.
  - exists rs, w', before, after.
    split; [exact Hrun|]. split; [exact Htrace|]. split; [exact Hb|].
    split; [exact Ha | exact Hp].
Defined.

(** C9, where the code departs from the claim — With [video_source]
    given as bytes, when [temp_file.write] or [temp_file.close] raises,
    [upload_video] raises that exception and does not return, and the
    temporary file that [NamedTemporaryFile(suffix='.mp4', delete=False)]
    has created is still there: [temp_file_path] is assigned after the
    write only, so the [finally] unlinks nothing. The only event is the
    creation of the file, and no other file changes. *)
Theorem temporary_file_survives_failed_write
    (self : VideoUploader.VideoUploader) (x : VideoUploader.Externals)
    (data : list Byte.byte) (title description privacy : string)
    (tags : option (list string)) (instagram_caption schedule_time : option string)
    (platforms : option (list string)) (w : VideoUploader.World)
    (stem : string) (e : exn) :
  VideoUploader.tempfile x = VideoUploader.TempWriteFails stem e ->
  exists w',
    VideoUploader.upload_video self x (VideoUploader.Bytes data) title description
      tags privacy instagram_caption schedule_time platforms w = (Raised e, w')
    /\ is_Some (VideoUploader.files w' !! (stem ++ ".mp4"))
    /\ delete (stem ++ ".mp4") (VideoUploader.files w')
       = delete (stem ++ ".mp4") (VideoUploader.files w)
    /\ VideoUploader.trace w'
       = (VideoUploader.trace w ++ [VideoUploader.TempFileCreated (stem ++ ".mp4")])%list.
Proof.
  intros Ht. unfold VideoUploader.upload_video, VideoUploader.handle_source.
  rewrite Ht. eexists. split; [reflexivity|].
  cbn [VideoUploader.files VideoUploader.trace]. split; [|split; [|reflexivity]].
  - rewrite lookup_insert_eq. by eexists.
  - apply delete_insert_eq.
Qed.

(** C9, on fifteen bytes and a full disk: the call raises and the
    temporary file stays. *)
Lemma temporary_file_survives_failed_write_witness :
  exists w',
    VideoUploader.upload_video Samples.uploader Samples.full_disk
      (VideoUploader.Bytes Samples.fake_video_data) "Test Video" "Test Description"
      None "public" None None None Samples.start
    = (Raised (Exn OSError "[Errno 28] No space left on device"), w')
    /\ is_Some (VideoUploader.files w' !! "/tmp/tmpab12cd.mp4")
    /\ VideoUploader.trace w' = [VideoUploader.TempFileCreated "/tmp/tmpab12cd.mp4"].
Proof.
  destruct (temporary_file_survives_failed_write Samples.uploader Samples.full_disk
              Samples.fake_video_data "Test Video" "Test Description" "public"
              None None None None Samples.start "/tmp/tmpab12cd"
              (Exn OSError "[Errno 28] No space left on device") eq_refl)
    as (w' & Hrun & Hfile & _ & Htrace).
  exists w'. split; [exact Hrun|]. split; [exact Hfile | exact Htrace].
Defined.



(* ===================================================================== *)
(** ** upload_video.py: the command line *)
(* ===================================================================== *)






(* ===================================================================== *)
(** ** Retries *)
(* ===================================================================== *)

Section RetryFacts.
Import Tenacity.

Context {A : Type} (p : policy) (body : nat -> outcome A).


End RetryFacts.

Section ChunkLoopFacts.
Import YouTubeUploader Spec.




End ChunkLoopFacts.

Section AuthenticateFacts.
Import InstagramUploader.



End AuthenticateFacts.




(* ===================================================================== *)
(** ** youtube_uploader.py: the description *)
(* ===================================================================== *)

Lemma take_length n s : (String.length (PyStr.take n s) <= n)%nat.
Proof.
  revert s. induction n as [|n IH]; intros [|c s]; simpl; try lia.
  specialize (IH s). lia.
Qed.

(** The description never exceeds the limit of 5000 characters. *)
Lemma format_description_length description tags :
  (String.length (YouTubeUploader._format_description description tags)
   <= Z.to_nat 5000)%nat.
Proof. apply take_length. Qed.

(** C10 — at a description of 5000 characters without the hashtag and
    no tags, the result has 5000 characters and contains neither "#Shorts"
    nor "#shorts": the cut to 5000 characters removes what was appended. *)
Theorem format_description_drops_shorts :
  let description := PyStr.repeat_char "a" (Z.to_nat 5000) in
  let formatted := YouTubeUploader._format_description description None in
  String.length formatted = Z.to_nat 5000
  /\ PyStr.contains "#Shorts" formatted = false
  /\ PyStr.contains "#shorts" formatted = false.
Proof. vm_compute. done. Qed.
